(** * Booking engine of the fitness club: [api/models.py]

    A shallow embedding of the availability rules in [api/models.py]:
    [WorkSchedule.is_available], [Trainer.is_available],
    [Training.can_book], [Training.get_available_trainings],
    [Training.clean], [Booking.clean], the [pre_save] receiver
    [check_booking_time] and the write path of a [Booking] with its
    [UniqueConstraint]; then [Trainer.add_room] and [Trainer.remove_room],
    the [post_save] receiver [create_or_update_trainer_profile], the
    validators of [User.phone], [Room.available_seats] and the check
    constraints of [WorkSchedule] and [Training].

    Model instances are records that carry their primary key; a foreign key
    is the referenced record ([option] when the column is [null=True]); the
    tables the queries read are lists of rows in a [Store].  Python
    exceptions are the [Raise] side of [result].  Datetimes are naive: no
    time zone is applied between a stored [booking_time] and its hour. *)

From Stdlib Require Import String Ascii List Arith PeanoNat Bool Lia ZArith.
Import ListNotations.
Local Open Scope string_scope.
Local Open Scope nat_scope.

(** ** Exceptions *)

Inductive exn : Type :=
| AttributeError      (* attribute access on [None] *)
| ValueError          (* [datetime.fromisoformat] on a malformed string *)
| FieldError          (* a lookup name the model does not have *)
| ValidationError     (* [django.core.exceptions.ValidationError] *)
| IntegrityError.     (* a constraint of the table refused the row *)

Inductive result (A : Type) : Type :=
| Ok (a : A)
| Raise (e : exn).

Arguments Ok {A} a.
Arguments Raise {A} e.

Definition bind {A B : Type} (m : result A) (k : A -> result B) : result B :=
  match m with
  | Ok a => k a
  | Raise e => Raise e
  end.

Notation "x <- m ;; k" := (bind m (fun x => k))
  (at level 61, m at next level, right associativity).

(** [o.attr] where [o] may be [None]. *)
Definition getattr {A : Type} (o : option A) : result A :=
  match o with
  | Some a => Ok a
  | None => Raise AttributeError
  end.

(** ** [datetime.time] and [datetime.datetime] *)

Record time : Type := mk_time
  { hour : nat; minute : nat; second : nat; microsecond : nat }.

(** Naive times compare as the tuples (hour, minute, second, microsecond). *)
Definition time_cmp (a b : time) : comparison :=
  match hour a ?= hour b with
  | Eq =>
      match minute a ?= minute b with
      | Eq =>
          match second a ?= second b with
          | Eq => microsecond a ?= microsecond b
          | c => c
          end
      | c => c
      end
  | c => c
  end.

(** [a <= b] *)
Definition time_leb (a b : time) : bool :=
  match time_cmp a b with Gt => false | _ => true end.

(** [a >= b] *)
Definition time_geb (a b : time) : bool :=
  match time_cmp a b with Lt => false | _ => true end.

Record datetime : Type := mk_datetime
  { year : nat; month : nat; day : nat; time_of : time }.

(** The order on times, stated on the fields. *)
Definition time_lt (a b : time) : Prop :=
  hour a < hour b \/
  (hour a = hour b /\
   (minute a < minute b \/
    (minute a = minute b /\
     (second a < second b \/
      (second a = second b /\ microsecond a < microsecond b))))).

Definition time_le (a b : time) : Prop := time_lt a b \/ a = b.

(** ** Model records *)

Record WorkSchedule : Type := mk_WorkSchedule
  { ws_start_time : time;
    ws_end_time : time;
    ws_break_start : time;
    ws_break_end : time }.

Record Room : Type := mk_Room
  { room_pk : nat;
    room_capacity : nat }.

Record Trainer : Type := mk_Trainer
  { trainer_pk : nat;
    trainer_rooms : list nat;                     (* pks of the rooms *)
    trainer_work_schedule : option WorkSchedule }.  (* null=True *)

Record GroupTrainingType : Type := mk_GroupTrainingType
  { gtt_pk : nat }.

Record Training : Type := mk_Training
  { training_pk : nat;
    trainer : option Trainer;                     (* null=True *)
    room : Room;
    training_type : string;                       (* 'GT', 'PT', 'SW' *)
    group_training_type : option GroupTrainingType;  (* null=True *)
    start_time : time;
    end_time : time }.

Record Booking : Type := mk_Booking
  { booking_pk : option nat;                      (* None until saved *)
    user : nat;                                   (* pk of the user *)
    training : option Training;                   (* null=True *)
    booking_time : option datetime }.

Record Store : Type := mk_Store
  { trainings : list Training;                    (* Training.objects *)
    bookings : list Booking }.                    (* Booking.objects *)

(** ** [WorkSchedule.is_available] and [Trainer.is_available] *)

Definition WorkSchedule_is_available (self : WorkSchedule)
    (start_time' end_time' : time) : bool :=
  time_leb (ws_start_time self) start_time'
  && time_geb (ws_end_time self) end_time'.

Definition Trainer_is_available (self : Trainer)
    (start_time' end_time' : time) : bool :=
  match trainer_work_schedule self with
  | None => false
  | Some ws => WorkSchedule_is_available ws start_time' end_time'
  end.

(** ** Queries of [Training.can_book] *)

(** [booking_time__hour__range=(lo, hi)]; a NULL column matches nothing. *)
Definition hour_in_range (lo hi : nat) (b : Booking) : bool :=
  match booking_time b with
  | Some dt => (lo <=? hour (time_of dt)) && (hour (time_of dt) <=? hi)
  | None => false
  end.

(** [training=self]: the foreign key column equals the primary key. *)
Definition booking_of (self : Training) (b : Booking) : bool :=
  match training b with
  | Some t => training_pk t =? training_pk self
  | None => false
  end.

(** [Booking.objects.filter(training=self,
      booking_time__hour__range=(self.start_time.hour, self.end_time.hour)).count()] *)
Definition bookings_count (db : Store) (self : Training) : nat :=
  length
    (filter
       (fun b => booking_of self b
                 && hour_in_range (hour (start_time self)) (hour (end_time self)) b)
       (bookings db)).

(** [trainer=self.trainer] *)
Definition same_trainer (self other : Training) : bool :=
  match trainer self, trainer other with
  | Some a, Some b => trainer_pk a =? trainer_pk b
  | None, None => true
  | _, _ => false
  end.

(** [group_training_type=self.group_training_type]; [None] is IS NULL. *)
Definition same_group_type (self other : Training) : bool :=
  match group_training_type self, group_training_type other with
  | Some a, Some b => gtt_pk a =? gtt_pk b
  | None, None => true
  | _, _ => false
  end.

Definition same_group_training (self other : Training) : bool :=
  same_trainer self other
  && same_group_type self other
  && time_leb (start_time other) (start_time self)
  && time_geb (end_time other) (end_time self).

(** [Training.objects.filter(trainer=..., group_training_type=...,
      start_time__lte=self.start_time, end_time__gte=self.end_time)] *)
Definition same_group_trainings (db : Store) (self : Training) : list Training :=
  filter (same_group_training self) (trainings db).

Definition exists_ {A : Type} (qs : list A) : bool :=
  match qs with [] => false | _ :: _ => true end.

(** The argument of [can_book]: a [str] or a [datetime.time]. *)
Inductive time_arg : Type :=
| Str (s : string)
| Time (t : time).

Section Engine.

(** [datetime.fromisoformat] and [str] of a [datetime], of Python's library. *)
Variable fromisoformat : string -> option datetime.
Variable str : datetime -> string.

(** Lines 209-210. *)
Definition as_time (booking_time' : time_arg) : result time :=
  match booking_time' with
  | Str s =>
      match fromisoformat s with
      | Some dt => Ok (time_of dt)
      | None => Raise ValueError
      end
  | Time t => Ok t
  end.

(** ** [Training.can_book] *)

Definition Training_can_book (db : Store) (self : Training)
    (booking_time' : time_arg) : result bool :=
  booking_time' <- as_time booking_time' ;;
  let bookings_count := bookings_count db self in
  (* work_schedule = self.trainer.work_schedule *)
  trainer_obj <- getattr (trainer self) ;;
  let work_schedule := trainer_work_schedule trainer_obj in
  (* work_schedule.break_start <= booking_time <= work_schedule.break_end *)
  ws <- getattr work_schedule ;;
  if time_leb (ws_break_start ws) booking_time'
     && time_leb booking_time' (ws_break_end ws)
  then Ok false
  else if String.eqb (training_type self) "GT" then
    if negb (Trainer_is_available trainer_obj (start_time self) (end_time self))
    then Ok false
    else if negb (exists_ (same_group_trainings db self))
    then Ok false
    else Ok (bookings_count <? room_capacity (room self))
  else if String.eqb (training_type self) "PT" then
    if (0 <? bookings_count)
       || negb (match trainer self with Some _ => true | None => false end)
    then Ok false
    else if negb (Trainer_is_available trainer_obj (start_time self) (end_time self))
    then Ok false
    else Ok (bookings_count <? room_capacity (room self))   (* line 246 *)
  else if String.eqb (training_type self) "SW" then
    Ok (bookings_count <? room_capacity (room self))
  else Ok (bookings_count <? room_capacity (room self)).

(** ** [Booking.clean] and the [pre_save] receiver *)

(** A non-empty [str] is true. *)
Definition truthy (s : string) : bool :=
  match s with EmptyString => false | String _ _ => true end.

(** [str(b.booking_time) if b.booking_time else None]: a [datetime] is
    always true. *)
Definition booking_time_str (b : Booking) : option string :=
  match booking_time b with
  | Some dt => Some (str dt)
  | None => None
  end.

(** [if booking_time_str and not b.training.can_book(booking_time_str):
      raise ValidationError(...)], the body both entry points share. *)
Definition recheck (db : Store) (b : Booking) : result unit :=
  match booking_time_str b with
  | None => Ok tt
  | Some s =>
      if truthy s then
        t <- getattr (training b) ;;
        ok <- Training_can_book db t (Str s) ;;
        if negb ok then Raise ValidationError else Ok tt
      else Ok tt
  end.

(** [super().clean()] does nothing. *)
Definition Booking_clean (db : Store) (self : Booking) : result unit :=
  recheck db self.

Definition check_booking_time (db : Store) (instance : Booking) : result unit :=
  recheck db instance.

(** ** Writing a [Booking]

    [Model.save] sends [pre_save], then writes the row; the table refuses a
    NULL [booking_time] and a row that breaks [unique_booking_per_user].  As
    in SQL, two NULLs in a unique column are not equal. *)

Definition has_pk (k : nat) (r : Booking) : bool :=
  match booking_pk r with
  | Some j => j =? k
  | None => false
  end.

Definition other_row (self r : Booking) : bool :=
  match booking_pk self with
  | Some k => negb (has_pk k r)
  | None => true
  end.

Definition same_user_training (self r : Booking) : bool :=
  (user r =? user self)
  && match training r, training self with
     | Some a, Some b => training_pk a =? training_pk b
     | _, _ => false
     end.

(** [UniqueConstraint(fields=['user', 'training'])] *)
Definition unique_booking_per_user (rows : list Booking) (self : Booking) : bool :=
  negb (existsb (fun r => other_row self r && same_user_training self r) rows).

Definition next_pk (rows : list Booking) : nat :=
  S (fold_right
       (fun r m => match booking_pk r with Some k => Nat.max k m | None => m end)
       0 rows).

Definition with_pk (k : nat) (b : Booking) : Booking :=
  mk_Booking (Some k) (user b) (training b) (booking_time b).

(** UPDATE of the row with this pk, else INSERT. *)
Definition write_row (rows : list Booking) (self : Booking) : list Booking :=
  match booking_pk self with
  | Some k =>
      if existsb (has_pk k) rows
      then map (fun r => if has_pk k r then self else r) rows
      else rows ++ [self]
  | None => rows ++ [with_pk (next_pk rows) self]
  end.

Definition Booking_save (db : Store) (self : Booking) : result Store :=
  _ <- check_booking_time db self ;;
  match booking_time self with
  | None => Raise IntegrityError
  | Some _ =>
      if unique_booking_per_user (bookings db) self
      then Ok (mk_Store (trainings db) (write_row (bookings db) self))
      else Raise IntegrityError
  end.

(** [on_delete=models.CASCADE] on [Booking.training]. *)
Definition Training_delete (db : Store) (k : nat) : Store :=
  mk_Store
    (filter (fun t => negb (training_pk t =? k)) (trainings db))
    (filter
       (fun b => match training b with
                 | Some t => negb (training_pk t =? k)
                 | None => true
                 end)
       (bookings db)).

Definition Booking_delete (db : Store) (k : nat) : Store :=
  mk_Store (trainings db) (filter (fun b => negb (has_pk k b)) (bookings db)).

(** The writes that move the store: a [Booking] saved or deleted, a
    [Training] deleted with its bookings, the [Training] table rewritten. *)
Inductive step : Store -> Store -> Prop :=
| step_Booking_save : forall db b db',
    Booking_save db b = Ok db' -> step db db'
| step_Booking_delete : forall db k,
    step db (Booking_delete db k)
| step_Training_delete : forall db k,
    step db (Training_delete db k)
| step_Training_save : forall db ts,
    step db (mk_Store ts (bookings db)).

Inductive reachable : Store -> Prop :=
| reachable_empty : reachable (mk_Store [] [])
| reachable_step : forall db db', reachable db -> step db db' -> reachable db'.

End Engine.

(** The (user, training) pair of a row. *)
Definition user_training (b : Booking) : nat * option nat :=
  (user b, option_map training_pk (training b)).

(** ** [Training.clean]

    The record holds a room, so the test [self.room] of line 259 is true:
    this is [clean] on an instance whose room is set. *)

Definition Training_clean (self : Training) : result unit :=
  if String.eqb (training_type self) "GT"
     && negb (match group_training_type self with Some _ => true | None => false end)
  then Raise ValidationError
  else if negb (String.eqb (training_type self) "GT")
          && match group_training_type self with Some _ => true | None => false end
  then Raise ValidationError
  else if match trainer self with
          | Some tr => negb (existsb (Nat.eqb (room_pk (room self))) (trainer_rooms tr))
          | None => false
          end
  then Raise ValidationError
  else if match trainer self with Some _ => true | None => false end
          && String.eqb (training_type self) "SW"
  then Raise ValidationError
  else Ok tt.

(** ** [Training.get_available_trainings] *)

(** The names a lookup on [Training] resolves: its fields, and the reverse
    side of [Booking.training], whose name is the [related_name] of that
    foreign key, 'training_bookings'. *)
Definition Training_lookups : list string :=
  ["id"; "pk"; "trainer"; "trainer_id"; "room"; "room_id"; "training_type";
   "group_training_type"; "group_training_type_id"; "start_time"; "end_time";
   "training_bookings"].

Definition resolve (name : string) : result unit :=
  if existsb (String.eqb name) Training_lookups then Ok tt else Raise FieldError.

Section Listing.

(** [booking_time BETWEEN start_time AND end_time], a DateTime column
    against two Time columns, as the database compares them. *)
Variable between : datetime -> time -> time -> bool.

Definition booked_in_window (db : Store) (t : Training) : bool :=
  existsb
    (fun b => booking_of t b
              && match booking_time b with
                 | Some dt => between dt (start_time t) (end_time t)
                 | None => false
                 end)
    (bookings db).

(** [Count(rel)] *)
Definition Count (db : Store) (t : Training) : nat :=
  length (filter (booking_of t) (bookings db)).

(** The query, with the name [rel] for the bookings of a training. *)
Definition available_trainings (rel : string) (db : Store) (start_time' : time)
  : result (list Training) :=
  _ <- resolve "start_time" ;;
  _ <- resolve rel ;;
  _ <- resolve "room" ;;
  Ok (filter
        (fun t => time_geb (start_time t) start_time'
                  && negb (booked_in_window db t)
                  && (Count db t <? room_capacity (room t)))
        (trainings db)).

Definition Training_get_available_trainings (db : Store) (start_time' : time)
  : result (list Training) :=
  available_trainings "bookings" db start_time'.

End Listing.

(** ** A stand-in for [str] and [datetime.fromisoformat]

    Enough of the two library functions to run the model: naive datetimes,
    'YYYY-MM-DD HH:MM:SS' with '.ffffff' when the microseconds are not 0. *)

Definition digit (n : nat) : ascii := ascii_of_nat (48 + n mod 10).

Fixpoint digits (width n : nat) : string :=
  match width with
  | 0 => ""
  | S w => (digits w (n / 10) ++ String (digit n) "")%string
  end.

Definition iso_str (dt : datetime) : string :=
  let t := time_of dt in
  (digits 4 (year dt) ++ "-" ++ digits 2 (month dt) ++ "-" ++ digits 2 (day dt)
   ++ " " ++ digits 2 (hour t) ++ ":" ++ digits 2 (minute t) ++ ":"
   ++ digits 2 (second t)
   ++ (if Nat.eqb (microsecond t) 0 then "" else "." ++ digits 6 (microsecond t)))%string.

Fixpoint number (acc : nat) (s : string) : option nat :=
  match s with
  | EmptyString => Some acc
  | String c r =>
      let d := nat_of_ascii c in
      if (48 <=? d) && (d <=? 57) then number (10 * acc + (d - 48)) r else None
  end.

Definition field (from len : nat) (s : string) : option nat :=
  number 0 (substring from len s).

Definition iso_parse (s : string) : option datetime :=
  let n := String.length s in
  if ((n =? 19) || (n =? 26))
     && String.eqb (substring 4 1 s) "-" && String.eqb (substring 7 1 s) "-"
     && (String.eqb (substring 10 1 s) " " || String.eqb (substring 10 1 s) "T")
     && String.eqb (substring 13 1 s) ":" && String.eqb (substring 16 1 s) ":"
     && ((n =? 19) || String.eqb (substring 19 1 s) ".")
  then
    match field 0 4 s, field 5 2 s, field 8 2 s,
          field 11 2 s, field 14 2 s, field 17 2 s, field 20 6 s with
    | Some y, Some mo, Some d, Some h, Some mi, Some sec, Some us =>
        if (1 <=? mo) && (mo <=? 12) && (1 <=? d) && (d <=? 31)
           && (h <? 24) && (mi <? 60) && (sec <? 60)
        then Some (mk_datetime y mo d (mk_time h mi sec us))
        else None
    | _, _, _, _, _, _, _ => None
    end
  else None.

(** ** [Trainer.add_room] and [Trainer.remove_room]

    [self.rooms] is the set of rooms of the trainer; [add] of a room that is
    there already adds nothing. *)

Definition Trainer_add_room (self : Trainer) (r : Room) : Trainer :=
  if existsb (Nat.eqb (room_pk r)) (trainer_rooms self) then self
  else mk_Trainer (trainer_pk self) (trainer_rooms self ++ [room_pk r])
         (trainer_work_schedule self).

Definition Trainer_remove_room (self : Trainer) (r : Room) : Trainer :=
  mk_Trainer (trainer_pk self)
    (filter (fun k => negb (k =? room_pk r)) (trainer_rooms self))
    (trainer_work_schedule self).

(** ** [User] and the [post_save] receiver [create_or_update_trainer_profile] *)

Record User : Type := mk_User
  { user_pk : nat;
    role : string;                                (* 'CL', 'TR', 'AD' *)
    phone : list nat }.                           (* the code points *)

(** [Trainer.objects]: each row with the pk of its user (OneToOneField). *)
Definition TrainerTable : Type := list (nat * Trainer).

Inductive orm_exn : Type :=
| MultipleObjectsReturned.

Definition next_trainer_pk (rows : TrainerTable) : nat :=
  S (fold_right (fun r m => Nat.max (trainer_pk (snd r)) m) 0 rows).

(** [Trainer.objects.get_or_create(user=instance)]: the new row has no
    rooms and no work schedule. *)
Definition get_or_create (rows : TrainerTable) (u : nat) : TrainerTable + orm_exn :=
  match filter (fun r => fst r =? u) rows with
  | [] => inl (rows ++ [(u, mk_Trainer (next_trainer_pk rows) [] None)])%list
  | [_] => inl rows
  | _ :: _ :: _ => inr MultipleObjectsReturned
  end.

Definition create_or_update_trainer_profile (rows : TrainerTable) (instance : User)
  : TrainerTable + orm_exn :=
  if String.eqb (role instance) "TR" then get_or_create rows (user_pk instance)
  else inl rows.

(** ** The validators of [User.phone] *)

Section Phone.

(** The class [\d] of a [str] pattern: the decimal digits of Unicode. *)
Variable isdecimal : nat -> bool.

(** [^\+7[67]\d{9}$], searched in the value; [$] also matches before a
    newline that ends the value. *)
Definition phone_regex (s : list nat) : bool :=
  match s with
  | a :: b :: c :: rest =>
      (a =? 43) && (b =? 55) && ((c =? 54) || (c =? 55))
      && (length (firstn 9 rest) =? 9) && forallb isdecimal (firstn 9 rest)
      && match skipn 9 rest with
         | [] => true
         | [nl] => nl =? 10
         | _ :: _ :: _ => false
         end
  | _ => false
  end.

(** [run_validators]: an empty value is not validated ([blank=True] lets it
    through); [max_length=20] adds its own validator. *)
Definition User_phone_validate (s : list nat) : result unit :=
  match s with
  | [] => Ok tt
  | _ :: _ =>
      if phone_regex s && (length s <=? 20) then Ok tt else Raise ValidationError
  end.

End Phone.

(** ** [Room.available_seats] *)

(** The attributes of a [Room]: its fields, the property, and the reverse
    sides of [Training.room] ('room_trainings') and [Trainer.rooms]
    ('trainers'). *)
Definition Room_attributes : list string :=
  ["id"; "pk"; "room_type"; "name"; "capacity"; "available_seats";
   "room_trainings"; "trainers"].

Definition Room_getattr (name : string) : result unit :=
  if existsb (String.eqb name) Room_attributes then Ok tt
  else Raise AttributeError.

Definition Room_available_seats (db : Store) (self : Room) : result Z :=
  _ <- Room_getattr "capacity" ;;
  _ <- Room_getattr "trainings" ;;
  _ <- resolve "bookings" ;;
  let bookings_count :=
    length
      (filter
         (fun b => match training b with
                   | Some t => room_pk (room t) =? room_pk self
                   | None => false
                   end)
         (bookings db)) in
  Ok (Z.of_nat (room_capacity self) - Z.of_nat bookings_count)%Z.

(** ** The check constraints of [WorkSchedule] and [Training] *)

(** [a < b] and [a > b] *)
Definition time_ltb (a b : time) : bool :=
  match time_cmp a b with Lt => true | _ => false end.

Definition time_gtb (a b : time) : bool :=
  match time_cmp a b with Gt => true | _ => false end.

(** [Q(start_time__lt=F('end_time'))] *)
Definition api_workschedule_start_time_lt_end_time (ws : WorkSchedule) : bool :=
  time_ltb (ws_start_time ws) (ws_end_time ws).

(** [Q(end_time__lt=F('break_start')) | Q(start_time__gt=F('break_end'))] *)
Definition no_work_during_break (ws : WorkSchedule) : bool :=
  time_ltb (ws_end_time ws) (ws_break_start ws)
  || time_gtb (ws_start_time ws) (ws_break_end ws).

(** The body of [class WorkSchedule] binds [Meta] twice, at line 83 with the
    two constraints and at line 102 with the verbose names only; the class
    keeps the binding made last. *)
Definition WorkSchedule_Meta_bindings : list (list (WorkSchedule -> bool)) :=
  [ [api_workschedule_start_time_lt_end_time; no_work_during_break];
    [] ].

Definition WorkSchedule_constraints : list (WorkSchedule -> bool) :=
  last WorkSchedule_Meta_bindings [].

Definition WorkSchedule_save (rows : list WorkSchedule) (self : WorkSchedule)
  : result (list WorkSchedule) :=
  if forallb (fun c => c self) WorkSchedule_constraints
  then Ok (rows ++ [self])%list
  else Raise IntegrityError.

(** [Q(start_time__lt=F('end_time'))] *)
Definition api_training_start_time_lt_end_time (t : Training) : bool :=
  time_ltb (start_time t) (end_time t).

Definition Training_constraints : list (Training -> bool) :=
  [api_training_start_time_lt_end_time].

(** UPDATE of the rows with this pk, else INSERT. *)
Definition write_training (rows : list Training) (self : Training) : list Training :=
  if existsb (fun t => training_pk t =? training_pk self) rows
  then map (fun t => if training_pk t =? training_pk self then self else t) rows
  else rows ++ [self].

(** [Model.save] of a [Training]: no receiver, no [clean]; the table checks
    its constraint. *)
Definition Training_save (db : Store) (self : Training) : result Store :=
  if forallb (fun c => c self) Training_constraints
  then Ok (mk_Store (write_training (trainings db) self) (bookings db))
  else Raise IntegrityError.

(** ** Sample data *)

Definition at_ (h m : nat) : time := mk_time h m 0 0.

(** 08:00-17:00, break 12:00-13:00. *)
Definition schedule1 : WorkSchedule :=
  mk_WorkSchedule (at_ 8 0) (at_ 17 0) (at_ 12 0) (at_ 13 0).

Definition gym : Room := mk_Room 1 2.

Definition T1 : Trainer := mk_Trainer 1 [1] (Some schedule1).

(** A trainer as the [post_save] receiver of [User] creates it:
    [Trainer.objects.get_or_create(user=instance)], no schedule yet. *)
Definition T2 : Trainer := mk_Trainer 2 [] None.

Definition yoga : GroupTrainingType := mk_GroupTrainingType 1.

Definition personal1 : Training :=
  mk_Training 1 (Some T1) gym "PT" None (at_ 10 0) (at_ 11 0).

Definition group1 : Training :=
  mk_Training 2 (Some T1) gym "GT" (Some yoga) (at_ 14 0) (at_ 15 0).

Definition free1 : Training :=
  mk_Training 3 (Some T1) gym "SW" None (at_ 10 0) (at_ 11 0).

(** The free training [Training.clean] accepts: no trainer. *)
Definition free2 : Training :=
  mk_Training 4 None gym "SW" None (at_ 10 0) (at_ 11 0).

Definition personal2 : Training :=
  mk_Training 5 None gym "PT" None (at_ 10 0) (at_ 11 0).

Definition personal3 : Training :=
  mk_Training 6 (Some T2) gym "PT" None (at_ 10 0) (at_ 11 0).

Definition db1 : Store :=
  mk_Store [personal1; group1; free1; free2; personal2; personal3] [].

(** A booking at 11:59, after the end of the 10:00-11:00 training. *)
Definition late_booking : Booking :=
  mk_Booking (Some 1) 7 (Some personal1)
    (Some (mk_datetime 2024 1 15 (at_ 11 59))).

(** A booking with no [booking_time], on a training with no trainer. *)
Definition untimed_booking : Booking :=
  mk_Booking None 7 (Some personal2) None.

Definition booking1 : Booking :=
  mk_Booking None 7 (Some personal1)
    (Some (mk_datetime 2024 1 15 (at_ 10 30))).

(** The store after [booking1] is saved. *)
Definition db2 : Store :=
  mk_Store (trainings db1) [with_pk 1 booking1].

(** The rows of the Booking table are well formed: every row has its own
    primary key and a training, and no (user, training) pair is repeated. *)
Definition rows_ok (rows : list Booking) : Prop :=
  NoDup (map booking_pk rows)
  /\ Forall (fun r => booking_pk r <> None /\ training r <> None) rows
  /\ NoDup (map user_training rows).

(** A booking of [personal1] made at 03:00. *)
Definition early_booking : Booking :=
  mk_Booking None 7 (Some personal1)
    (Some (mk_datetime 2024 1 15 (at_ 3 0))).

(** A booking of [free1] at 10:30, stored with pk 1, and the store that
    holds it. *)
Definition seat_booking : Booking :=
  mk_Booking (Some 1) 7 (Some free1)
    (Some (mk_datetime 2024 1 15 (at_ 10 30))).

Definition db3 : Store := mk_Store (trainings db1) [seat_booking].

(** A booking of the free training without a trainer. *)
Definition free_booking : Booking :=
  mk_Booking None 7 (Some free2)
    (Some (mk_datetime 2024 1 15 (at_ 10 30))).

Definition pool : Room := mk_Room 2 30.

Definition coach : User := mk_User 5 "TR" [].

(** The ASCII digits, the least [\d] can be. *)
Definition ascii_digit (c : nat) : bool := (48 <=? c) && (c <=? 57).

(** '+77012345678' *)
Definition phone1 : list nat := [43; 55; 55; 48; 49; 50; 51; 52; 53; 54; 55; 56].

(** A schedule that ends before it starts. *)
Definition schedule2 : WorkSchedule :=
  mk_WorkSchedule (at_ 17 0) (at_ 8 0) (at_ 12 0) (at_ 13 0).

(** ** Notions the statements use *)

(** [break_start <= t <= break_end] *)
Definition in_break (ws : WorkSchedule) (t : time) : bool :=
  time_leb (ws_break_start ws) t && time_leb t (ws_break_end ws).

(** A record of the [Training] table that the group query accepts for
    [self]: same trainer, same group type, a window containing the window of
    [self]. *)
Definition group_slot (self other : Training) : Prop :=
  (exists a b, trainer self = Some a /\ trainer other = Some b
               /\ trainer_pk a = trainer_pk b)
  /\ option_map gtt_pk (group_training_type other)
     = option_map gtt_pk (group_training_type self)
  /\ time_le (start_time other) (start_time self)
  /\ time_le (end_time self) (end_time other).

(** A booking of [self] whose hour lies in the hours of [self]. *)
Definition in_hour_bucket (self : Training) (b : Booking) : Prop :=
  exists t dt,
    training b = Some t /\ training_pk t = training_pk self
    /\ booking_time b = Some dt
    /\ hour (start_time self) <= hour (time_of dt) <= hour (end_time self).

(** [Counts P l n]: exactly [n] elements of [l] satisfy [P]. *)
Inductive Counts {A : Type} (P : A -> Prop) : list A -> nat -> Prop :=
| Counts_nil : Counts P [] 0
| Counts_hit : forall x l n, P x -> Counts P l n -> Counts P (x :: l) (S n)
| Counts_miss : forall x l n, ~ P x -> Counts P l n -> Counts P (x :: l) n.

(** The values the pattern of [User.phone] describes: '+7', a '6' or a '7',
    nine digits, and at most a newline after them. *)
Definition phone_shape (isdecimal : nat -> bool) (s : list nat) : Prop :=
  exists c ds tail,
    s = 43 :: 55 :: c :: ds ++ tail
    /\ (c = 54 \/ c = 55)
    /\ length ds = 9
    /\ Forall (fun d => isdecimal d = true) ds
    /\ (tail = [] \/ tail = [10]).

(** * Properties *)

(** ** The order on times *)

Ltac cmp_cases :=
  repeat match goal with
         | |- context [?x ?= ?y] => destruct (Nat.compare_spec x y)
         end.

Lemma time_cmp_Eq : forall a b, time_cmp a b = Eq <-> a = b.
Proof.
  intros [h1 m1 s1 u1] [h2 m2 s2 u2]; unfold time_cmp; simpl.
  split.
  - cmp_cases; intros Hc; try discriminate; subst; reflexivity.
  - intros Hc; injection Hc as -> -> -> ->.
    rewrite !Nat.compare_refl; reflexivity.
Qed.

Lemma time_cmp_Lt : forall a b, time_cmp a b = Lt <-> time_lt a b.
Proof.
  intros [h1 m1 s1 u1] [h2 m2 s2 u2]; unfold time_cmp, time_lt; simpl.
  cmp_cases; split; intros Hc; try discriminate; try reflexivity; lia.
Qed.

Lemma time_cmp_opp : forall a b, time_cmp b a = CompOpp (time_cmp a b).
Proof.
  intros a b; unfold time_cmp.
  rewrite (Nat.compare_antisym (hour a)), (Nat.compare_antisym (minute a)),
    (Nat.compare_antisym (second a)), (Nat.compare_antisym (microsecond a)).
  destruct (hour a ?= hour b), (minute a ?= minute b), (second a ?= second b);
    reflexivity.
Qed.

Lemma time_leb_le : forall a b, time_leb a b = true <-> time_le a b.
Proof.
  intros a b; unfold time_leb, time_le.
  rewrite <- time_cmp_Lt, <- time_cmp_Eq.
  destruct (time_cmp a b); split; intros H; auto; try discriminate.
  destruct H; discriminate.
Qed.

Lemma time_geb_leb : forall a b, time_geb a b = time_leb b a.
Proof.
  intros a b; unfold time_geb, time_leb; rewrite (time_cmp_opp a b).
  destruct (time_cmp a b); reflexivity.
Qed.

Lemma time_geb_le : forall a b, time_geb a b = true <-> time_le b a.
Proof. intros a b; rewrite time_geb_leb; apply time_leb_le. Qed.

Lemma time_le_refl : forall a, time_le a a.
Proof. intros a; right; reflexivity. Qed.

(** ** Availability of a trainer *)

(** C7: [WorkSchedule.is_available(start, end)] is true exactly when the work
    window contains the interval, [start_time <= start] and [end_time >= end],
    whatever the break window is; [Trainer.is_available] is false for a
    trainer without a work schedule and otherwise is the answer of the
    schedule. *)
Theorem is_available_work_window :
  forall (ws : WorkSchedule) (tr : Trainer) (s e : time),
    (WorkSchedule_is_available ws s e = true
     <-> time_le (ws_start_time ws) s /\ time_le e (ws_end_time ws))
    /\ (forall b1 b2,
           WorkSchedule_is_available
             (mk_WorkSchedule (ws_start_time ws) (ws_end_time ws) b1 b2) s e
           = WorkSchedule_is_available ws s e)
    /\ (trainer_work_schedule tr = None -> Trainer_is_available tr s e = false)
    /\ (forall ws', trainer_work_schedule tr = Some ws' ->
                    Trainer_is_available tr s e
                    = WorkSchedule_is_available ws' s e).
Proof.
  intros ws tr s e.
  assert (Hws : forall w, WorkSchedule_is_available w s e = true
                          <-> time_le (ws_start_time w) s /\ time_le e (ws_end_time w)).
  { intros w; unfold WorkSchedule_is_available.
    rewrite andb_true_iff, time_leb_le, time_geb_le; reflexivity. }
  split; [apply Hws |].
  split; [intros b1 b2; reflexivity |].
  unfold Trainer_is_available.
  split; [intros -> | intros ws' ->]; reflexivity.
Qed.

Lemma is_available_work_window_witness :
  WorkSchedule_is_available schedule1 (at_ 10 0) (at_ 11 0) = true
  /\ Trainer_is_available T2 (at_ 10 0) (at_ 11 0) = false
  /\ Trainer_is_available T1 (at_ 12 15) (at_ 12 45) = true.
Proof.
  destruct (is_available_work_window schedule1 T2 (at_ 10 0) (at_ 11 0))
    as (H1 & _ & H2 & _).
  destruct (is_available_work_window schedule1 T1 (at_ 12 15) (at_ 12 45))
    as (H3 & _ & _ & H4).
  split; [| split].
  - apply H1; split; left; unfold time_lt; simpl; lia.
  - apply H2; reflexivity.
  - rewrite (H4 schedule1 eq_refl).
    apply H3; split; left; unfold time_lt; simpl; lia.
Defined.

(** ** [Training.can_book] *)

(** What [can_book] computes once the trainer and the schedule are there. *)
Lemma can_book_with_schedule :
  forall fromisoformat db self tr ws arg t,
    trainer self = Some tr ->
    trainer_work_schedule tr = Some ws ->
    as_time fromisoformat arg = Ok t ->
    Training_can_book fromisoformat db self arg
    = Ok (if in_break ws t then false
          else if String.eqb (training_type self) "GT" then
            Trainer_is_available tr (start_time self) (end_time self)
            && exists_ (same_group_trainings db self)
            && (bookings_count db self <? room_capacity (room self))
          else if String.eqb (training_type self) "PT" then
            (bookings_count db self =? 0)
            && Trainer_is_available tr (start_time self) (end_time self)
            && (bookings_count db self <? room_capacity (room self))
          else bookings_count db self <? room_capacity (room self)).
Proof.
  intros f db self tr ws arg t Htr Hws Harg.
  unfold Training_can_book, in_break.
  rewrite Harg, Htr; simpl. rewrite Hws; simpl.
  destruct (time_leb (ws_break_start ws) t && time_leb t (ws_break_end ws));
    [reflexivity |].
  destruct (String.eqb (training_type self) "GT").
  - destruct (Trainer_is_available tr (start_time self) (end_time self));
      simpl; [| reflexivity].
    destruct (exists_ (same_group_trainings db self)); reflexivity.
  - destruct (String.eqb (training_type self) "PT").
    + destruct (bookings_count db self) as [| n]; simpl; [| reflexivity].
      destruct (Trainer_is_available tr (start_time self) (end_time self));
        reflexivity.
    + destruct (String.eqb (training_type self) "SW"); reflexivity.
Qed.

Lemma can_book_no_trainer :
  forall fromisoformat db self arg t,
    trainer self = None ->
    as_time fromisoformat arg = Ok t ->
    Training_can_book fromisoformat db self arg = Raise AttributeError.
Proof.
  intros f db self arg t Htr Harg.
  unfold Training_can_book. rewrite Harg, Htr; reflexivity.
Qed.

Lemma can_book_no_schedule :
  forall fromisoformat db self tr arg t,
    trainer self = Some tr ->
    trainer_work_schedule tr = None ->
    as_time fromisoformat arg = Ok t ->
    Training_can_book fromisoformat db self arg = Raise AttributeError.
Proof.
  intros f db self tr arg t Htr Hws Harg.
  unfold Training_can_book. rewrite Harg, Htr; simpl. rewrite Hws; reflexivity.
Qed.

Lemma in_break_le :
  forall ws t,
    in_break ws t = true
    <-> time_le (ws_break_start ws) t /\ time_le t (ws_break_end ws).
Proof.
  intros ws t; unfold in_break.
  rewrite andb_true_iff, !time_leb_le; reflexivity.
Qed.

(** C3: for a training of any type whose trainer has a work schedule, a
    booking time with [break_start <= t <= break_end], both ends included, is
    refused: [can_book] returns false whatever the capacity, the bookings and
    the work window are. *)
Theorem can_book_break_refused :
  forall fromisoformat db self tr ws arg t,
    trainer self = Some tr ->
    trainer_work_schedule tr = Some ws ->
    as_time fromisoformat arg = Ok t ->
    time_le (ws_break_start ws) t ->
    time_le t (ws_break_end ws) ->
    Training_can_book fromisoformat db self arg = Ok false.
Proof.
  intros f db self tr ws arg t Htr Hws Harg Hlo Hhi.
  rewrite (can_book_with_schedule _ db _ _ _ _ _ Htr Hws Harg).
  replace (in_break ws t) with true; [reflexivity |].
  symmetry; apply in_break_le; split; assumption.
Qed.

Lemma can_book_break_refused_witness :
  Training_can_book iso_parse db1 personal1 (Str "2024-01-15 12:30:00") = Ok false
  /\ Training_can_book iso_parse db1 free1 (Time (at_ 13 0)) = Ok false.
Proof.
  split.
  - apply (can_book_break_refused iso_parse db1 personal1 T1 schedule1
             (Str "2024-01-15 12:30:00") (at_ 12 30));
      try reflexivity; left; unfold time_lt; simpl; lia.
  - apply (can_book_break_refused iso_parse db1 free1 T1 schedule1
             (Time (at_ 13 0)) (at_ 13 0));
      try reflexivity; [left; unfold time_lt; simpl; lia | apply time_le_refl].
Defined.

Lemma Ok_true_iff :
  forall (r : result bool) (b : bool) (P : Prop),
    r = Ok b -> (b = true <-> P) -> (r = Ok true <-> P).
Proof.
  intros r b P -> HP; rewrite <- HP.
  split; [intros H; injection H; auto | intros ->; reflexivity].
Qed.

Lemma not_in_break :
  forall ws t,
    ~ (time_le (ws_break_start ws) t /\ time_le t (ws_break_end ws)) ->
    in_break ws t = false.
Proof.
  intros ws t H; destruct (in_break ws t) eqn:E; [| reflexivity].
  exfalso; apply H, in_break_le, E.
Qed.

(** A FREE training that has a trainer with a work schedule, which
    [Training.clean] refuses and [save] stores: a booking time inside the
    break window is refused, and outside it [can_book] returns true exactly
    when the hour-range count of bookings is below the capacity of the room,
    whatever the work window of the trainer is. *)
Theorem can_book_free_capacity :
  forall fromisoformat db self tr ws arg t,
    training_type self = "SW" ->
    trainer self = Some tr ->
    trainer_work_schedule tr = Some ws ->
    as_time fromisoformat arg = Ok t ->
    (time_le (ws_break_start ws) t /\ time_le t (ws_break_end ws) ->
     Training_can_book fromisoformat db self arg = Ok false)
    /\ (~ (time_le (ws_break_start ws) t /\ time_le t (ws_break_end ws)) ->
        (Training_can_book fromisoformat db self arg = Ok true
         <-> bookings_count db self < room_capacity (room self))).
Proof.
  intros f db self tr ws arg t Hty Htr Hws Harg.
  pose proof (can_book_with_schedule _ db _ _ _ _ _ Htr Hws Harg) as E.
  rewrite Hty in E; simpl in E.
  split.
  - intros Hin. apply in_break_le in Hin. rewrite Hin in E; exact E.
  - intros Hout. rewrite (not_in_break _ _ Hout) in E.
    apply (Ok_true_iff _ _ _ E), Nat.ltb_lt.
Qed.

Lemma can_book_free_capacity_witness :
  Training_can_book iso_parse db1 free1 (Time (at_ 12 30)) = Ok false
  /\ (Training_can_book iso_parse db1 free1 (Time (at_ 10 30)) = Ok true
      <-> bookings_count db1 free1 < room_capacity (room free1)).
Proof.
  split.
  - apply (can_book_free_capacity iso_parse db1 free1 T1 schedule1
             (Time (at_ 12 30)) (at_ 12 30)); try reflexivity.
    split; left; unfold time_lt; simpl; lia.
  - apply (can_book_free_capacity iso_parse db1 free1 T1 schedule1
             (Time (at_ 10 30)) (at_ 10 30)); try reflexivity.
    intros [[H | H] _]; [unfold time_lt in H; simpl in H; lia | discriminate H].
Defined.

(** The FREE training [free1], given a trainer, has no booking and a room
    for two, and [can_book] refuses 12:30, inside the break of its trainer. *)
Lemma can_book_free_in_break :
  ~ (forall db self t,
        training_type self = "SW" ->
        (Training_can_book iso_parse db self (Time t) = Ok true
         <-> bookings_count db self < room_capacity (room self))).
Proof.
  intros H.
  destruct (H db1 free1 (at_ 12 30) eq_refl) as [_ H2].
  assert (E : Training_can_book iso_parse db1 free1 (Time (at_ 12 30)) = Ok true)
    by (apply H2; vm_compute; lia).
  vm_compute in E; discriminate E.
Qed.

(** ** GROUP trainings *)

Lemma same_group_type_eq :
  forall self o,
    same_group_type self o = true
    <-> option_map gtt_pk (group_training_type o)
        = option_map gtt_pk (group_training_type self).
Proof.
  intros self o; unfold same_group_type.
  destruct (group_training_type self), (group_training_type o); simpl;
    rewrite ?Nat.eqb_eq; split; intros H;
    try discriminate; try reflexivity; try congruence.
Qed.

Lemma same_group_training_slot :
  forall self tr o,
    trainer self = Some tr ->
    (same_group_training self o = true <-> group_slot self o).
Proof.
  intros self tr o Htr; unfold same_group_training, group_slot.
  rewrite !andb_true_iff, same_group_type_eq, time_leb_le, time_geb_le.
  unfold same_trainer; rewrite Htr.
  split.
  - intros [[[H1 H2] H3] H4]; repeat split; auto.
    destruct (trainer o) as [b |]; [| discriminate].
    exists tr, b; apply Nat.eqb_eq in H1; auto.
  - intros [(a & b & Ha & Hb & Hab) [H2 [H3 H4]]]; repeat split; auto.
    rewrite Hb; injection Ha as <-; apply Nat.eqb_eq, Hab.
Qed.

Lemma exists_filter :
  forall (A : Type) (p : A -> bool) (l : list A),
    exists_ (filter p l) = true <-> exists x, In x l /\ p x = true.
Proof.
  intros A p l; split.
  - destruct (filter p l) as [| x r] eqn:E; [discriminate |].
    intros _; exists x; apply filter_In; rewrite E; left; reflexivity.
  - intros (x & Hx); apply filter_In in Hx.
    destruct (filter p l); [destruct Hx | reflexivity].
Qed.

Lemma group_slot_self :
  forall self tr, trainer self = Some tr -> group_slot self self.
Proof.
  intros self tr Htr; unfold group_slot; repeat split;
    try apply time_le_refl.
  exists tr, tr; auto.
Qed.

(** C2, as the code has it: for a GROUP training whose trainer has a work
    schedule, when no record of the Training table, the training itself
    included, has the same trainer, the same group type and a window
    containing this one, [can_book] returns false for every booking time;
    when such a record exists, the trainer is available for
    [start_time, end_time] and the booking time is outside the break window,
    [can_book] returns true exactly when the count is below the capacity;
    and a training that is in the table is such a record for itself. *)
Theorem can_book_group_slot :
  forall fromisoformat db self tr ws arg t,
    training_type self = "GT" ->
    trainer self = Some tr ->
    trainer_work_schedule tr = Some ws ->
    as_time fromisoformat arg = Ok t ->
    ((forall o, In o (trainings db) -> ~ group_slot self o) ->
     Training_can_book fromisoformat db self arg = Ok false)
    /\ ((exists o, In o (trainings db) /\ group_slot self o) ->
        Trainer_is_available tr (start_time self) (end_time self) = true ->
        ~ (time_le (ws_break_start ws) t /\ time_le t (ws_break_end ws)) ->
        (Training_can_book fromisoformat db self arg = Ok true
         <-> bookings_count db self < room_capacity (room self)))
    /\ (In self (trainings db) ->
        exists o, In o (trainings db) /\ group_slot self o).
Proof.
  intros f db self tr ws arg t Hty Htr Hws Harg.
  pose proof (can_book_with_schedule _ db _ _ _ _ _ Htr Hws Harg) as E.
  rewrite Hty in E; simpl in E.
  split; [| split].
  - intros Hnone.
    assert (Hex : exists_ (same_group_trainings db self) = false).
    { destruct (exists_ (same_group_trainings db self)) eqn:Ex; [| reflexivity].
      apply exists_filter in Ex; destruct Ex as (o & Ho & Hs).
      exfalso; apply (Hnone o Ho), (same_group_training_slot _ _ o Htr), Hs. }
    rewrite Hex, andb_false_r in E; simpl in E.
    destruct (in_break ws t); exact E.
  - intros (o & Ho & Hs) Hav Hout.
    assert (Hex : exists_ (same_group_trainings db self) = true).
    { apply exists_filter; exists o; split; [exact Ho |].
      apply (same_group_training_slot _ _ o Htr), Hs. }
    rewrite (not_in_break _ _ Hout), Hav, Hex in E; simpl in E.
    apply (Ok_true_iff _ _ _ E), Nat.ltb_lt.
  - intros Hin; exists self; split; [exact Hin |].
    apply (group_slot_self _ _ Htr).
Qed.

Lemma can_book_group_slot_witness :
  Training_can_book iso_parse (mk_Store [] []) group1 (Time (at_ 14 30)) = Ok false
  /\ (Training_can_book iso_parse db1 group1 (Time (at_ 14 30)) = Ok true
      <-> bookings_count db1 group1 < room_capacity (room group1)).
Proof.
  split.
  - apply (can_book_group_slot iso_parse (mk_Store [] []) group1 T1 schedule1
             (Time (at_ 14 30)) (at_ 14 30)); try reflexivity.
    intros o [].
  - destruct (can_book_group_slot iso_parse db1 group1 T1 schedule1
                (Time (at_ 14 30)) (at_ 14 30)) as (_ & H2 & H3);
      try reflexivity.
    apply H2; [apply H3; simpl; tauto | reflexivity |].
    intros [_ [H | H]]; [unfold time_lt in H; simpl in H; lia | discriminate H].
Defined.

(** C2 as stated fails: [group1] is the only record of the Training table,
    so no other training shares its trainer, group type and window, and
    [can_book] accepts 14:30. *)
Lemma can_book_group_alone :
  ~ (forall db self t,
        training_type self = "GT" ->
        (forall o, In o (trainings db) -> o <> self -> ~ group_slot self o) ->
        Training_can_book iso_parse db self (Time t) = Ok false).
Proof.
  intros H.
  assert (E : Training_can_book iso_parse (mk_Store [group1] []) group1
                (Time (at_ 14 30)) = Ok false).
  { apply H; [reflexivity |].
    intros o [<- | []] Hne; exfalso; apply Hne; reflexivity. }
  vm_compute in E; discriminate E.
Qed.

(** ** The unguarded break check *)

(** C4, at the failing input: [personal3] has a trainer, the trainer has no
    work schedule, and [can_book] raises AttributeError at
    [work_schedule.break_start]. *)
Theorem can_book_schedule_missing :
  trainer personal3 = Some T2
  /\ trainer_work_schedule T2 = None
  /\ Trainer_is_available T2 (start_time personal3) (end_time personal3) = false
  /\ Training_can_book iso_parse db1 personal3 (Time (at_ 10 30))
     = Raise AttributeError.
Proof. repeat split. Qed.

(** C5, at the failing input: the PERSONAL training [personal2] has no
    trainer and no booking, 10:30 is in no break window, and [can_book]
    raises AttributeError at [self.trainer.work_schedule], before the guard
    [not self.trainer] of the PERSONAL branch that would return false. *)
Theorem can_book_personal_no_trainer :
  training_type personal2 = "PT"
  /\ trainer personal2 = None
  /\ Training_can_book iso_parse db1 personal2 (Time (at_ 10 30))
     = Raise AttributeError.
Proof. repeat split. Qed.

(** C1, at the failing input: [free2] is a FREE training as [Training.clean]
    accepts it, without a trainer; it has no booking and a room for two, so
    the count is below the capacity, and [can_book] raises AttributeError at
    [self.trainer.work_schedule] before the FREE branch compares the count
    with the capacity. *)
Theorem can_book_free_no_trainer :
  training_type free2 = "SW"
  /\ Training_clean free2 = Ok tt
  /\ trainer free2 = None
  /\ bookings_count db1 free2 < room_capacity (room free2)
  /\ Training_can_book iso_parse db1 free2 (Time (at_ 10 30))
     = Raise AttributeError.
Proof. repeat split; vm_compute; lia. Qed.

(** The rest of the PERSONAL branch, for a trainer with a schedule and a
    booking time outside the break. *)
Lemma can_book_personal :
  forall fromisoformat db self tr ws arg t,
    training_type self = "PT" ->
    trainer self = Some tr ->
    trainer_work_schedule tr = Some ws ->
    as_time fromisoformat arg = Ok t ->
    ~ (time_le (ws_break_start ws) t /\ time_le t (ws_break_end ws)) ->
    (0 < bookings_count db self ->
     Training_can_book fromisoformat db self arg = Ok false)
    /\ (Trainer_is_available tr (start_time self) (end_time self) = false ->
        Training_can_book fromisoformat db self arg = Ok false)
    /\ (bookings_count db self = 0 ->
        Trainer_is_available tr (start_time self) (end_time self) = true ->
        (Training_can_book fromisoformat db self arg = Ok true
         <-> bookings_count db self < room_capacity (room self))).
Proof.
  intros f db self tr ws arg t Hty Htr Hws Harg Hout.
  pose proof (can_book_with_schedule _ db _ _ _ _ _ Htr Hws Harg) as E.
  rewrite Hty, (not_in_break _ _ Hout) in E; simpl in E.
  split; [| split].
  - intros Hpos. destruct (bookings_count db self); [lia | exact E].
  - intros Hav. rewrite Hav, andb_false_r in E; exact E.
  - intros H0 Hav. rewrite Hav, H0 in E; simpl in E.
    rewrite H0; apply (Ok_true_iff _ _ _ E), Nat.ltb_lt.
Qed.

(** A FREE training that [Training.clean] accepts has no trainer, and
    [can_book] raises on it. *)
Lemma can_book_clean_free :
  forall fromisoformat db self arg t,
    Training_clean self = Ok tt ->
    training_type self = "SW" ->
    as_time fromisoformat arg = Ok t ->
    Training_can_book fromisoformat db self arg = Raise AttributeError.
Proof.
  intros f db self arg t Hclean Hty Harg.
  apply (can_book_no_trainer _ _ _ _ t); [| exact Harg].
  unfold Training_clean in Hclean; rewrite Hty in Hclean; simpl in Hclean.
  destruct (group_training_type self); [discriminate |].
  destruct (trainer self) as [tr |]; [| reflexivity].
  simpl in Hclean.
  destruct (existsb (Nat.eqb (room_pk (room self))) (trainer_rooms tr));
    discriminate.
Qed.

(** ** The count of bookings *)

Lemma in_hour_bucket_filter :
  forall self b,
    booking_of self b
    && hour_in_range (hour (start_time self)) (hour (end_time self)) b = true
    <-> in_hour_bucket self b.
Proof.
  intros self b; unfold booking_of, hour_in_range, in_hour_bucket.
  rewrite andb_true_iff; split.
  - destruct (training b) as [t |]; [| intros [H _]; discriminate].
    destruct (booking_time b) as [dt |]; [| intros [_ H]; discriminate].
    intros [H1 H2]; apply andb_true_iff in H2; destruct H2 as [H2 H3].
    apply Nat.eqb_eq in H1; apply Nat.leb_le in H2, H3.
    exists t, dt; auto.
  - intros (t & dt & -> & Hpk & -> & Hlo & Hhi); split.
    + apply Nat.eqb_eq, Hpk.
    + apply andb_true_iff; split; apply Nat.leb_le; assumption.
Qed.

Lemma Counts_filter :
  forall (A : Type) (P : A -> Prop) (p : A -> bool),
    (forall x, p x = true <-> P x) ->
    forall l, Counts P l (length (filter p l)).
Proof.
  intros A P p Hp l; induction l as [| x l IH]; simpl.
  - constructor.
  - destruct (p x) eqn:E; simpl.
    + apply Counts_hit; [apply Hp, E | exact IH].
    + apply Counts_miss; [| exact IH].
      intros HP; apply Hp in HP; congruence.
Qed.

Lemma Counts_unique :
  forall (A : Type) (P : A -> Prop) (l : list A) (n m : nat),
    Counts P l n -> Counts P l m -> n = m.
Proof.
  intros A P l n m Hn; revert m.
  induction Hn as [| x l n Hx Hn IH | x l n Hx Hn IH]; intros m Hm;
    inversion Hm; subst; auto; contradiction.
Qed.

(** C6: the count [can_book] uses is exactly the number of stored bookings of
    this training whose [booking_time] has its hour in
    [start_time.hour, end_time.hour], both ends included; it reads the window
    of the training by its hours only. *)
Theorem bookings_count_hour_bucket :
  forall (db : Store) (self : Training),
    Counts (in_hour_bucket self) (bookings db) (bookings_count db self)
    /\ (forall n, Counts (in_hour_bucket self) (bookings db) n ->
                  n = bookings_count db self)
    /\ (forall s e,
           hour s = hour (start_time self) ->
           hour e = hour (end_time self) ->
           bookings_count db
             (mk_Training (training_pk self) (trainer self) (room self)
                (training_type self) (group_training_type self) s e)
           = bookings_count db self).
Proof.
  intros db self.
  assert (HC : Counts (in_hour_bucket self) (bookings db) (bookings_count db self)).
  { unfold bookings_count; apply Counts_filter.
    intros b; apply in_hour_bucket_filter. }
  split; [exact HC |]. split.
  - intros n Hn; apply (Counts_unique _ _ _ _ _ Hn HC).
  - intros s e Hs He; unfold bookings_count; simpl.
    rewrite Hs, He; reflexivity.
Qed.

Lemma bookings_count_hour_bucket_witness :
  bookings_count (mk_Store [personal1] [late_booking]) personal1 = 1
  /\ bookings_count (mk_Store [personal1] [late_booking])
       (mk_Training 1 (Some T1) gym "PT" None (at_ 10 45) (at_ 11 5)) = 1.
Proof.
  destruct (bookings_count_hour_bucket
              (mk_Store [personal1] [late_booking]) personal1)
    as (_ & H2 & H3).
  assert (E : bookings_count (mk_Store [personal1] [late_booking]) personal1 = 1).
  { symmetry; apply H2. apply Counts_hit; [| constructor].
    exists personal1, (mk_datetime 2024 1 15 (at_ 11 59)); simpl.
    repeat split; lia. }
  split; [exact E |].
  rewrite <- E. apply (H3 (at_ 10 45) (at_ 11 5)); reflexivity.
Defined.

(** ** [Training.get_available_trainings] *)

(** C8, on every input: the query names the bookings of a training
    'bookings', the reverse side of [Booking.training] is named
    'training_bookings', and building the query raises FieldError. *)
Theorem get_available_trainings_raises :
  forall between (db : Store) (after_time : time),
    Training_get_available_trainings between db after_time = Raise FieldError.
Proof. intros between db after_time; reflexivity. Qed.

(** Under the name the model declares, the query is the filter C8 states. *)
Lemma available_trainings_related_name :
  forall between (db : Store) (after_time : time),
  exists l,
    available_trainings between "training_bookings" db after_time = Ok l
    /\ forall t,
        In t l
        <-> In t (trainings db)
            /\ time_le after_time (start_time t)
            /\ booked_in_window between db t = false
            /\ Count db t < room_capacity (room t).
Proof.
  intros between db after_time; eexists; split; [reflexivity |].
  intros t; rewrite filter_In, !andb_true_iff, time_geb_le, negb_true_iff,
    Nat.ltb_lt.
  tauto.
Qed.

(** ** Validation of a [Booking] *)

(** C10: a booking whose [booking_time] is None passes [Booking.clean] and
    the pre-save receiver: neither calls [can_book], neither raises,
    whatever the training of the booking is. *)
Theorem booking_time_none_unchecked :
  forall fromisoformat str (db : Store) (b : Booking),
    booking_time b = None ->
    Booking_clean fromisoformat str db b = Ok tt
    /\ check_booking_time fromisoformat str db b = Ok tt.
Proof.
  intros f str db b Hnone.
  unfold Booking_clean, check_booking_time, recheck, booking_time_str.
  rewrite Hnone; split; reflexivity.
Qed.

Lemma booking_time_none_unchecked_witness :
  Booking_clean iso_parse iso_str db1 untimed_booking = Ok tt
  /\ check_booking_time iso_parse iso_str db1 untimed_booking = Ok tt.
Proof.
  apply (booking_time_none_unchecked iso_parse iso_str db1 untimed_booking).
  reflexivity.
Defined.

(** ** One booking per user and training *)

Lemma NoDup_map_filter :
  forall (A B : Type) (g : A -> B) (p : A -> bool) (l : list A),
    NoDup (map g l) -> NoDup (map g (filter p l)).
Proof.
  intros A B g p l; induction l as [| x l IH]; simpl; intros H; [exact H |].
  inversion H as [| y l' Hx Hl]; subst.
  destruct (p x); simpl; [constructor |]; auto.
  intros Hin; apply Hx.
  apply in_map_iff in Hin; destruct Hin as (z & Hz & Hin).
  apply filter_In in Hin; apply in_map_iff; exists z; tauto.
Qed.

Lemma rows_ok_filter :
  forall (p : Booking -> bool) (rows : list Booking),
    rows_ok rows -> rows_ok (filter p rows).
Proof.
  intros p rows (Hpk & Hall & Hkey); repeat split.
  - apply NoDup_map_filter, Hpk.
  - apply Forall_forall; intros r Hr; apply filter_In in Hr.
    rewrite Forall_forall in Hall; apply Hall, Hr.
  - apply NoDup_map_filter, Hkey.
Qed.

Lemma next_pk_above :
  forall (rows : list Booking) (r : Booking) (k : nat),
    In r rows -> booking_pk r = Some k -> k < next_pk rows.
Proof.
  unfold next_pk; intros rows r k; induction rows as [| x rows IH]; simpl;
    intros Hin Hk; [destruct Hin |].
  destruct Hin as [-> | Hin].
  - rewrite Hk; lia.
  - specialize (IH Hin Hk). destruct (booking_pk x); lia.
Qed.

Lemma has_pk_Some :
  forall k r, has_pk k r = true <-> booking_pk r = Some k.
Proof.
  intros k r; unfold has_pk; destruct (booking_pk r) as [j |].
  - rewrite Nat.eqb_eq; split; congruence.
  - split; discriminate.
Qed.

(** Two rows with the same pair, both with a training, trip the
    constraint. *)
Lemma same_user_training_pair :
  forall b r,
    training r <> None ->
    user_training r = user_training b ->
    same_user_training b r = true.
Proof.
  intros b r Htr Hkey; unfold user_training in Hkey; injection Hkey as Hu Ht.
  unfold same_user_training; rewrite Hu, Nat.eqb_refl; simpl.
  destruct (training r) as [a |]; [| congruence].
  destruct (training b) as [c |]; [| discriminate].
  simpl in Ht; injection Ht as ->; apply Nat.eqb_refl.
Qed.

Lemma unique_passes :
  forall rows b r,
    unique_booking_per_user rows b = true ->
    In r rows -> other_row b r = true -> same_user_training b r = false.
Proof.
  intros rows b r Hu Hin Ho; unfold unique_booking_per_user in Hu.
  apply negb_true_iff in Hu.
  destruct (same_user_training b r) eqn:E; [| reflexivity].
  assert (Hex : existsb (fun r => other_row b r && same_user_training b r) rows
                = true).
  { apply existsb_exists; exists r; rewrite Ho, E; auto. }
  congruence.
Qed.

Lemma rows_ok_append :
  forall rows b,
    rows_ok rows ->
    booking_pk b <> None -> training b <> None ->
    ~ In (booking_pk b) (map booking_pk rows) ->
    (forall r, In r rows -> same_user_training b r = false) ->
    rows_ok (rows ++ [b]).
Proof.
  intros rows b (Hpk & Hall & Hkey) Hb Htb Hfresh Hdiff.
  rewrite Forall_forall in Hall.
  repeat split.
  - rewrite map_app; simpl. apply NoDup_app; repeat split; auto.
    + repeat constructor; simpl; tauto.
    + intros x Hx [<- | []]; auto.
  - apply Forall_forall; intros r Hr; apply in_app_iff in Hr.
    destruct Hr as [Hr | [<- | []]]; auto.
  - rewrite map_app; simpl. apply NoDup_app; repeat split; auto.
    + repeat constructor; simpl; tauto.
    + intros x Hx [<- | []].
      apply in_map_iff in Hx; destruct Hx as (r & Hk & Hr).
      pose proof (same_user_training_pair b r (proj2 (Hall r Hr)) Hk) as E.
      rewrite (Hdiff r Hr) in E; discriminate.
Qed.

Lemma rows_ok_update :
  forall rows b k,
    rows_ok rows ->
    booking_pk b = Some k -> training b <> None ->
    (forall r, In r rows -> has_pk k r = false -> same_user_training b r = false) ->
    rows_ok (map (fun r => if has_pk k r then b else r) rows).
Proof.
  intros rows b k (Hpk & Hall & Hkey) Hb Htb Hdiff.
  set (f := fun r => if has_pk k r then b else r).
  assert (Hf : forall r, booking_pk (f r) = booking_pk r).
  { intros r; unfold f; destruct (has_pk k r) eqn:E; [| reflexivity].
    apply has_pk_Some in E; congruence. }
  repeat split.
  - rewrite map_map, (map_ext _ _ Hf); exact Hpk.
  - rewrite Forall_forall in *; intros z Hz.
    apply in_map_iff in Hz; destruct Hz as (r & <- & Hr).
    unfold f; destruct (has_pk k r); [split; congruence | apply Hall, Hr].
  - clear Hf. induction rows as [| x l IH]; simpl; [constructor |].
    inversion Hpk as [| ? ? Hxpk Hlpk]; subst.
    inversion Hkey as [| ? ? Hxkey Hlkey]; subst.
    inversion Hall as [| ? ? Hx Hl]; subst.
    assert (Hdl : forall r, In r l -> has_pk k r = false ->
                            same_user_training b r = false)
      by (intros r Hr; apply Hdiff; right; exact Hr).
    rewrite Forall_forall in Hl.
    unfold f at 1; destruct (has_pk k x) eqn:E.
    + assert (Hnone : forall r, In r l -> has_pk k r = false).
      { intros r Hr; destruct (has_pk k r) eqn:Er; [| reflexivity].
        exfalso; apply Hxpk. apply has_pk_Some in E, Er.
        rewrite E, <- Er; apply in_map, Hr. }
      assert (Hid : map f l = l).
      { rewrite <- (map_id l) at 2; apply map_ext_in.
        intros r Hr; unfold f; rewrite (Hnone r Hr); reflexivity. }
      rewrite Hid; constructor; [| exact Hlkey].
      intros Hin; apply in_map_iff in Hin; destruct Hin as (r & Hk & Hr).
      pose proof (same_user_training_pair b r (proj2 (Hl r Hr)) Hk) as Es.
      rewrite (Hdl r Hr (Hnone r Hr)) in Es; discriminate.
    + constructor; [| apply IH; auto; apply Forall_forall, Hl].
      intros Hin; apply in_map_iff in Hin; destruct Hin as (z & Hk & Hz).
      apply in_map_iff in Hz; destruct Hz as (r & <- & Hr).
      unfold f in Hk; destruct (has_pk k r).
      * pose proof (same_user_training_pair b x (proj2 Hx) (eq_sym Hk)) as Es.
        rewrite (Hdiff x (or_introl eq_refl) E) in Es; discriminate.
      * apply Hxkey; rewrite <- Hk; apply in_map, Hr.
Qed.

Lemma recheck_training :
  forall fromisoformat (str : datetime -> string) db b dt,
    (forall d, str d <> "") ->
    booking_time b = Some dt ->
    check_booking_time fromisoformat str db b = Ok tt ->
    training b <> None.
Proof.
  intros f str db b dt Hstr Hdt Hok Hnone.
  unfold check_booking_time, recheck, booking_time_str in Hok.
  rewrite Hdt, Hnone in Hok.
  destruct (str dt) eqn:E; [apply (Hstr dt E) | discriminate].
Qed.

Lemma Booking_save_rows_ok :
  forall fromisoformat (str : datetime -> string) db b db',
    (forall d, str d <> "") ->
    rows_ok (bookings db) ->
    Booking_save fromisoformat str db b = Ok db' ->
    rows_ok (bookings db').
Proof.
  intros f str db b db' Hstr Hok Hsave.
  unfold Booking_save in Hsave.
  destruct (check_booking_time f str db b) as [[] | e] eqn:Hchk;
    [simpl in Hsave | discriminate].
  destruct (booking_time b) as [dt |] eqn:Hdt; [| discriminate].
  pose proof (recheck_training f str db b dt Hstr Hdt Hchk) as Htb.
  destruct (unique_booking_per_user (bookings db) b) eqn:Hu; [| discriminate].
  injection Hsave as <-; simpl.
  pose proof (fun r => unique_passes _ _ r Hu) as Hpass.
  unfold write_row, other_row in *.
  destruct (booking_pk b) as [k |] eqn:Hk.
  - destruct (existsb (has_pk k) (bookings db)) eqn:Hex.
    + apply rows_ok_update; auto.
      intros r Hr E; apply (Hpass r Hr); rewrite E; reflexivity.
    + assert (Hno : forall r, In r (bookings db) -> has_pk k r = false).
      { intros r Hr; destruct (has_pk k r) eqn:E; [| reflexivity].
        rewrite <- Hex; symmetry; apply existsb_exists; exists r; auto. }
      apply rows_ok_append; auto.
      * congruence.
      * rewrite Hk; intros Hin; apply in_map_iff in Hin.
        destruct Hin as (r & Hpk & Hr); apply has_pk_Some in Hpk.
        rewrite (Hno r Hr) in Hpk; discriminate.
      * intros r Hr; apply (Hpass r Hr); rewrite (Hno r Hr); reflexivity.
  - apply rows_ok_append; auto; simpl.
    + discriminate.
    + intros Hin; apply in_map_iff in Hin; destruct Hin as (r & Hpk & Hr).
      pose proof (next_pk_above _ _ _ Hr Hpk); lia.
    + intros r Hr; apply (Hpass r Hr); reflexivity.
Qed.

Lemma reachable_rows_ok :
  forall fromisoformat (str : datetime -> string) db,
    (forall d, str d <> "") ->
    reachable fromisoformat str db -> rows_ok (bookings db).
Proof.
  intros f str db Hstr Hreach; induction Hreach as [| db db' _ IH Hstep].
  - simpl; repeat split; constructor.
  - destruct Hstep as [db b db' Hsave | db k | db k | db ts]; simpl.
    + apply (Booking_save_rows_ok f str db b db' Hstr IH Hsave).
    + apply rows_ok_filter, IH.
    + apply rows_ok_filter, IH.
    + exact IH.
Qed.

(** C9: in every state of the store reached by saving and deleting
    bookings and trainings, no two rows of the Booking table have the same
    (user, training) pair, and saving a booking whose pair is that of
    another stored row fails. *)
Theorem unique_booking_per_user_holds :
  forall fromisoformat (str : datetime -> string) (db : Store),
    (forall d, str d <> "") ->
    reachable fromisoformat str db ->
    NoDup (map user_training (bookings db))
    /\ (forall b r,
           In r (bookings db) ->
           booking_pk r <> booking_pk b ->
           user_training r = user_training b ->
           exists e, Booking_save fromisoformat str db b = Raise e).
Proof.
  intros f str db Hstr Hreach.
  destruct (reachable_rows_ok f str db Hstr Hreach) as (Hpk & Hall & Hkey).
  split; [exact Hkey |].
  intros b r Hr Hne Hpair.
  rewrite Forall_forall in Hall.
  pose proof (same_user_training_pair b r (proj2 (Hall r Hr)) Hpair) as Es.
  assert (Ho : other_row b r = true).
  { unfold other_row; destruct (booking_pk b) as [k |] eqn:Hk; [| reflexivity].
    destruct (has_pk k r) eqn:E; [| reflexivity].
    apply has_pk_Some in E; congruence. }
  assert (Hu : unique_booking_per_user (bookings db) b = false).
  { unfold unique_booking_per_user; apply negb_false_iff, existsb_exists.
    exists r; rewrite Ho, Es; auto. }
  unfold Booking_save.
  destruct (check_booking_time f str db b) as [[] | e]; simpl;
    [| exists e; reflexivity].
  destruct (booking_time b); rewrite ?Hu; exists IntegrityError; reflexivity.
Qed.

Lemma iso_str_nonempty : forall d, iso_str d <> "".
Proof.
  intros d; unfold iso_str.
  destruct (digits 4 (year d)); simpl; discriminate.
Qed.

Lemma db2_reachable : reachable iso_parse iso_str db2.
Proof.
  apply reachable_step with db1.
  - apply reachable_step with (mk_Store [] []); [constructor |].
    apply (step_Training_save iso_parse iso_str (mk_Store [] []) (trainings db1)).
  - apply step_Booking_save with booking1; reflexivity.
Qed.

Lemma unique_booking_per_user_holds_witness :
  NoDup (map user_training (bookings db2))
  /\ exists e, Booking_save iso_parse iso_str db2 booking1 = Raise e.
Proof.
  destruct (unique_booking_per_user_holds iso_parse iso_str db2
              iso_str_nonempty db2_reachable) as [H1 H2].
  split; [exact H1 |].
  apply (H2 booking1 (with_pk 1 booking1)); simpl.
  - left; reflexivity.
  - discriminate.
  - reflexivity.
Defined.

(** ** The scenarios of the personal training *)

Example personal_first_booking :
  Training_can_book iso_parse db1 personal1 (Str "2024-01-15 10:30:00") = Ok true.
Proof. reflexivity. Qed.

Example personal_second_booking :
  Training_can_book iso_parse db2 personal1 (Str "2024-01-15 10:45:00") = Ok false.
Proof. reflexivity. Qed.

Example personal_second_save :
  Booking_save iso_parse iso_str db2 (mk_Booking None 8 (Some personal1)
                                        (Some (mk_datetime 2024 1 15 (at_ 10 45))))
  = Raise ValidationError.
Proof. reflexivity. Qed.

(** * Further properties *)

(** ** What [can_book] returns and raises *)

Lemma can_book_Ok_inv :
  forall fromisoformat db self arg b,
    Training_can_book fromisoformat db self arg = Ok b ->
    exists t tr ws,
      as_time fromisoformat arg = Ok t
      /\ trainer self = Some tr
      /\ trainer_work_schedule tr = Some ws.
Proof.
  intros f db self arg b H; unfold Training_can_book in H.
  destruct (as_time f arg) as [t | e]; [simpl in H | discriminate].
  destruct (trainer self) as [tr |]; [simpl in H | discriminate].
  destruct (trainer_work_schedule tr) as [ws |] eqn:Hws; [| discriminate].
  exists t, tr, ws; auto.
Qed.

Lemma as_time_raises :
  forall fromisoformat arg e,
    as_time fromisoformat arg = Raise e ->
    e = ValueError /\ exists s, arg = Str s /\ fromisoformat s = None.
Proof.
  intros f [s | t] e H; simpl in H; [| discriminate].
  destruct (f s) eqn:E; [discriminate |].
  injection H as <-; split; [reflexivity | exists s; auto].
Qed.

(** For a booking time given as a [str] or as a naive [datetime.time]:
    [can_book] answers with a boolean exactly when the argument is a time or
    a string that parses and the training has a trainer with a work
    schedule; it raises ValueError exactly when the argument is a string
    that does not parse, whatever the trainer is; it raises AttributeError
    exactly when the argument is a time or a string that parses and the
    trainer or the schedule of the trainer is missing. *)
Theorem can_book_outcome :
  forall fromisoformat (db : Store) (self : Training) (arg : time_arg),
    ((exists b, Training_can_book fromisoformat db self arg = Ok b)
     <-> exists t tr ws,
          as_time fromisoformat arg = Ok t
          /\ trainer self = Some tr
          /\ trainer_work_schedule tr = Some ws)
    /\ (Training_can_book fromisoformat db self arg = Raise ValueError
        <-> exists s, arg = Str s /\ fromisoformat s = None)
    /\ (Training_can_book fromisoformat db self arg = Raise AttributeError
        <-> (exists t, as_time fromisoformat arg = Ok t)
            /\ (trainer self = None
                \/ exists tr, trainer self = Some tr
                              /\ trainer_work_schedule tr = None)).
Proof.
  intros f db self arg.
  destruct (as_time f arg) as [t | e] eqn:Harg.
  - (* the argument is a time *)
    assert (Hnos : ~ exists s, arg = Str s /\ f s = None).
    { intros (s & -> & Hs); simpl in Harg; rewrite Hs in Harg; discriminate. }
    destruct (trainer self) as [tr |] eqn:Htr.
    + destruct (trainer_work_schedule tr) as [ws |] eqn:Hws.
      * rewrite (can_book_with_schedule f db self tr ws arg t Htr Hws Harg).
        repeat split; try discriminate.
        -- intros _; exists t, tr, ws; auto.
        -- intros _; eexists; reflexivity.
        -- intros H; exfalso; apply Hnos, H.
        -- intros [_ [H | (tr' & H1 & H2)]]; congruence.
      * rewrite (can_book_no_schedule f db self tr arg t Htr Hws Harg).
        repeat split; try discriminate; auto.
        -- intros (b & H); discriminate.
        -- intros (t' & tr' & ws' & _ & H1 & H2); congruence.
        -- intros H; exfalso; apply Hnos, H.
        -- exists t; reflexivity.
        -- right; exists tr; auto.
    + rewrite (can_book_no_trainer f db self arg t Htr Harg).
      repeat split; try discriminate; auto.
      * intros (b & H); discriminate.
      * intros (t' & tr' & ws' & _ & H1 & _); discriminate.
      * intros H; exfalso; apply Hnos, H.
      * exists t; reflexivity.
  - (* the string does not parse *)
    destruct (as_time_raises f arg e Harg) as (-> & s & -> & Hs).
    unfold Training_can_book; rewrite Harg; simpl.
    repeat split; try discriminate; auto.
    + intros (b & H); discriminate.
    + intros (t' & _ & _ & H & _); discriminate.
    + intros _; exists s; auto.
    + intros [(t' & H) _]; discriminate.
Qed.

(** When [can_book] returns true, the booking time is outside the break of
    the trainer, the hour-range count is below the capacity of the room, a
    GROUP training has an available trainer and a record of the table that
    contains its window, and a PERSONAL training has no counted booking and
    an available trainer. *)
Theorem can_book_true_guarantees :
  forall fromisoformat (db : Store) (self : Training) (arg : time_arg),
    Training_can_book fromisoformat db self arg = Ok true ->
    exists t tr ws,
      as_time fromisoformat arg = Ok t
      /\ trainer self = Some tr
      /\ trainer_work_schedule tr = Some ws
      /\ ~ (time_le (ws_break_start ws) t /\ time_le t (ws_break_end ws))
      /\ bookings_count db self < room_capacity (room self)
      /\ (training_type self = "GT" ->
          Trainer_is_available tr (start_time self) (end_time self) = true
          /\ exists o, In o (trainings db) /\ group_slot self o)
      /\ (training_type self = "PT" ->
          bookings_count db self = 0
          /\ Trainer_is_available tr (start_time self) (end_time self) = true).
Proof.
  intros f db self arg H.
  destruct (can_book_Ok_inv f db self arg true H) as (t & tr & ws & Harg & Htr & Hws).
  rewrite (can_book_with_schedule f db self tr ws arg t Htr Hws Harg) in H.
  injection H as H.
  exists t, tr, ws.
  split; [exact Harg |]. split; [exact Htr |]. split; [exact Hws |].
  assert (Hout : in_break ws t = false)
    by (destruct (in_break ws t); [discriminate | reflexivity]).
  rewrite Hout in H.
  split; [| split; [| split]].
  - intros Hin; apply in_break_le in Hin; congruence.
  - apply Nat.ltb_lt.
    destruct (String.eqb (training_type self) "GT");
      [| destruct (String.eqb (training_type self) "PT")];
      try (apply andb_true_iff in H; apply H); exact H.
  - intros Hty; rewrite Hty in H; simpl in H.
    apply andb_true_iff in H; destruct H as [H _].
    apply andb_true_iff in H; destruct H as [Hav H].
    split; [exact Hav |].
    apply exists_filter in H; destruct H as (o & Ho & Hs).
    exists o; split; [exact Ho |].
    apply (same_group_training_slot self tr o Htr), Hs.
  - intros Hty; rewrite Hty in H; simpl in H.
    apply andb_true_iff in H; destruct H as [H _].
    apply andb_true_iff in H; destruct H as [H0 Hav].
    split; [apply Nat.eqb_eq, H0 | exact Hav].
Qed.

Lemma can_book_true_guarantees_witness :
  bookings_count db1 personal1 < room_capacity (room personal1)
  /\ bookings_count db1 personal1 = 0.
Proof.
  destruct (can_book_true_guarantees iso_parse db1 personal1 (Time (at_ 10 30))
              eq_refl)
    as (t & tr & ws & _ & _ & _ & _ & Hcap & _ & Hpt).
  split; [exact Hcap | apply Hpt; reflexivity].
Defined.

(** ** The booking time and the session window *)

(** For a trainer with a schedule, [can_book] gives the same answer for any
    two booking times outside the break: the booking time is never compared
    with [start_time] and [end_time] of the training. *)
Theorem can_book_ignores_window :
  forall fromisoformat (db : Store) (self : Training) tr ws arg1 arg2 t1 t2,
    trainer self = Some tr ->
    trainer_work_schedule tr = Some ws ->
    as_time fromisoformat arg1 = Ok t1 ->
    as_time fromisoformat arg2 = Ok t2 ->
    ~ (time_le (ws_break_start ws) t1 /\ time_le t1 (ws_break_end ws)) ->
    ~ (time_le (ws_break_start ws) t2 /\ time_le t2 (ws_break_end ws)) ->
    Training_can_book fromisoformat db self arg1
    = Training_can_book fromisoformat db self arg2.
Proof.
  intros f db self tr ws arg1 arg2 t1 t2 Htr Hws H1 H2 Ho1 Ho2.
  rewrite (can_book_with_schedule f db self tr ws arg1 t1 Htr Hws H1),
    (can_book_with_schedule f db self tr ws arg2 t2 Htr Hws H2),
    (not_in_break ws t1 Ho1), (not_in_break ws t2 Ho2).
  reflexivity.
Qed.

Lemma can_book_ignores_window_witness :
  Training_can_book iso_parse db1 personal1 (Time (at_ 3 0))
  = Training_can_book iso_parse db1 personal1 (Str "2024-01-15 10:30:00").
Proof.
  apply (can_book_ignores_window iso_parse db1 personal1 T1 schedule1
           (Time (at_ 3 0)) (Str "2024-01-15 10:30:00") (at_ 3 0) (at_ 10 30));
    try reflexivity;
    intros [[H | H] _]; try discriminate H;
    unfold time_lt in H; simpl in H; lia.
Defined.

(** ** Bookings and the answer of [can_book] *)

(** [can_book] reads the store through the count and the Training table. *)
Lemma can_book_store :
  forall fromisoformat db db' self arg,
    trainings db' = trainings db ->
    bookings_count db' self = bookings_count db self ->
    Training_can_book fromisoformat db' self arg
    = Training_can_book fromisoformat db self arg.
Proof.
  intros f db db' self arg Ht Hc.
  unfold Training_can_book, same_group_trainings; rewrite Ht, Hc; reflexivity.
Qed.

Lemma can_book_fewer :
  forall fromisoformat db db' self arg,
    trainings db' = trainings db ->
    bookings_count db' self <= bookings_count db self ->
    Training_can_book fromisoformat db self arg = Ok true ->
    Training_can_book fromisoformat db' self arg = Ok true.
Proof.
  intros f db db' self arg Ht Hc H.
  destruct (can_book_Ok_inv f db self arg true H) as (t & tr & ws & Harg & Htr & Hws).
  rewrite (can_book_with_schedule f db self tr ws arg t Htr Hws Harg) in H.
  rewrite (can_book_with_schedule f db' self tr ws arg t Htr Hws Harg).
  injection H as H; f_equal.
  unfold same_group_trainings in *; rewrite Ht.
  destruct (in_break ws t); [discriminate |].
  destruct (String.eqb (training_type self) "GT");
    [| destruct (String.eqb (training_type self) "PT")];
    repeat rewrite andb_true_iff in *;
    rewrite ?Nat.ltb_lt, ?Nat.eqb_eq in *;
    intuition lia.
Qed.

Lemma filter_filter_length :
  forall (A : Type) (p q : A -> bool) (l : list A),
    length (filter p (filter q l)) <= length (filter p l).
Proof.
  intros A p q l; induction l as [| x l IH]; simpl; [lia |].
  destruct (q x); simpl; destruct (p x); simpl; lia.
Qed.

(** Deleting a booking never adds to the count of a training, whatever the
    training is, and never turns a time that could be booked into one that
    cannot: the Training table is not touched. *)
Theorem Booking_delete_keeps_bookable :
  forall fromisoformat (db : Store) (k : nat) (self : Training) (arg : time_arg),
    bookings_count (Booking_delete db k) self <= bookings_count db self
    /\ (Training_can_book fromisoformat db self arg = Ok true ->
        Training_can_book fromisoformat (Booking_delete db k) self arg = Ok true).
Proof.
  intros f db k self arg.
  assert (Hc : bookings_count (Booking_delete db k) self <= bookings_count db self)
    by (unfold bookings_count, Booking_delete; simpl; apply filter_filter_length).
  split; [exact Hc |].
  apply (can_book_fewer f db (Booking_delete db k) self arg eq_refl Hc).
Qed.

(** [db3] holds one booking of [free1]; deleting it empties the table, and
    10:30, bookable before, is bookable after. *)
Lemma Booking_delete_keeps_bookable_witness :
  bookings db3 = [seat_booking]
  /\ bookings (Booking_delete db3 1) = []
  /\ bookings_count db3 free1 = 1
  /\ bookings_count (Booking_delete db3 1) free1 <= bookings_count db3 free1
  /\ Training_can_book iso_parse (Booking_delete db3 1) free1 (Time (at_ 10 30))
     = Ok true.
Proof.
  destruct (Booking_delete_keeps_bookable iso_parse db3 1 free1 (Time (at_ 10 30)))
    as [Hc Hb].
  split; [reflexivity |]. split; [reflexivity |]. split; [reflexivity |].
  split; [exact Hc |].
  apply Hb; reflexivity.
Defined.

Lemma filter_hit :
  forall (A : Type) (p : A -> bool) (l : list A) (x : A),
    In x l -> p x = true -> 0 < length (filter p l).
Proof.
  intros A p l x Hin Hp.
  assert (H : In x (filter p l)) by (apply filter_In; auto).
  destruct (filter p l); [destruct H | simpl; lia].
Qed.

(** A PERSONAL training with one stored booking in its hour range is closed:
    [can_book] returns true for no booking time, whatever the capacity of the
    room. *)
Theorem personal_single_booking :
  forall fromisoformat (db : Store) (self : Training) (arg : time_arg) (b : Booking),
    training_type self = "PT" ->
    In b (bookings db) ->
    in_hour_bucket self b ->
    Training_can_book fromisoformat db self arg <> Ok true.
Proof.
  intros f db self arg b Hty Hin Hb H.
  destruct (can_book_Ok_inv f db self arg true H) as (t & tr & ws & Harg & Htr & Hws).
  rewrite (can_book_with_schedule f db self tr ws arg t Htr Hws Harg), Hty in H.
  simpl in H.
  assert (Hpos : 0 < bookings_count db self).
  { unfold bookings_count; apply (filter_hit _ _ _ b Hin).
    apply in_hour_bucket_filter, Hb. }
  destruct (bookings_count db self); [lia |].
  destruct (in_break ws t); discriminate.
Qed.

Lemma personal_single_booking_witness :
  Training_can_book iso_parse db2 personal1 (Time (at_ 9 0)) <> Ok true.
Proof.
  apply (personal_single_booking iso_parse db2 personal1 (Time (at_ 9 0))
           (with_pk 1 booking1)).
  - reflexivity.
  - left; reflexivity.
  - exists personal1, (mk_datetime 2024 1 15 (at_ 10 30)); simpl.
    repeat split; lia.
Defined.

(** ** Saving a booking *)

Lemma can_book_Raise_inv :
  forall fromisoformat db self arg e,
    Training_can_book fromisoformat db self arg = Raise e ->
    e = ValueError \/ e = AttributeError.
Proof.
  intros f db self arg e H; unfold Training_can_book in H.
  destruct (as_time f arg) as [t | e'] eqn:Harg; simpl in H.
  - destruct (trainer self) as [tr |]; simpl in H;
      [| injection H as <-; auto].
    destruct (trainer_work_schedule tr) as [ws |]; simpl in H;
      [| injection H as <-; auto].
    repeat match type of H with
           | (if ?c then _ else _) = _ => destruct c
           end; discriminate.
  - injection H as <-; left; apply (as_time_raises f arg e' Harg).
Qed.

Lemma truthy_str :
  forall (str : datetime -> string) d, str d <> "" -> truthy (str d) = true.
Proof. intros str d H; destruct (str d); [congruence | reflexivity]. Qed.

Lemma recheck_Ok_inv :
  forall fromisoformat (str : datetime -> string) db b dt,
    (forall d, str d <> "") ->
    booking_time b = Some dt ->
    recheck fromisoformat str db b = Ok tt ->
    exists T, training b = Some T
              /\ Training_can_book fromisoformat db T (Str (str dt)) = Ok true.
Proof.
  intros f str db b dt Hstr Hdt H.
  unfold recheck, booking_time_str in H.
  rewrite Hdt, (truthy_str str dt (Hstr dt)) in H.
  destruct (training b) as [T |]; [simpl in H | discriminate].
  exists T; split; [reflexivity |].
  destruct (Training_can_book f db T (Str (str dt))) as [[|] | e];
    [reflexivity | discriminate | discriminate].
Qed.

Lemma Booking_save_inv :
  forall fromisoformat (str : datetime -> string) db b db',
    Booking_save fromisoformat str db b = Ok db' ->
    exists dt,
      booking_time b = Some dt
      /\ recheck fromisoformat str db b = Ok tt
      /\ db' = mk_Store (trainings db) (write_row (bookings db) b).
Proof.
  intros f str db b db' H; unfold Booking_save, check_booking_time in H.
  destruct (recheck f str db b) as [[] | e]; [simpl in H | discriminate].
  destruct (booking_time b) as [dt |]; [| discriminate].
  destruct (unique_booking_per_user (bookings db) b); [| discriminate].
  injection H as <-; exists dt; auto.
Qed.

Lemma bucket_with_pk :
  forall self n b, in_hour_bucket self (with_pk n b) <-> in_hour_bucket self b.
Proof. intros self n b; unfold in_hour_bucket; simpl; reflexivity. Qed.

(** A new booking whose hour is outside the hour range of a training, or
    that is a booking of another training, leaves every answer of
    [can_book] for that training as it was: it takes none of the seats. *)
Theorem Booking_save_outside_bucket :
  forall fromisoformat (str : datetime -> string) (db db' : Store)
         (b : Booking) (self : Training) (arg : time_arg),
    Booking_save fromisoformat str db b = Ok db' ->
    booking_pk b = None ->
    ~ in_hour_bucket self b ->
    bookings_count db' self = bookings_count db self
    /\ Training_can_book fromisoformat db' self arg
       = Training_can_book fromisoformat db self arg.
Proof.
  intros f str db db' b self arg Hsave Hpk Hout.
  destruct (Booking_save_inv f str db b db' Hsave) as (dt & _ & _ & ->).
  assert (Hc : bookings_count
                 (mk_Store (trainings db) (write_row (bookings db) b)) self
               = bookings_count db self).
  { unfold bookings_count, write_row; simpl; rewrite Hpk.
    rewrite filter_app, length_app; simpl.
    destruct (booking_of self (with_pk (next_pk (bookings db)) b)
              && hour_in_range (hour (start_time self)) (hour (end_time self))
                   (with_pk (next_pk (bookings db)) b)) eqn:E; simpl; [| lia].
    exfalso; apply Hout.
    apply (bucket_with_pk self (next_pk (bookings db)) b).
    apply in_hour_bucket_filter, E. }
  split; [exact Hc |].
  apply can_book_store; [reflexivity | exact Hc].
Qed.

(** With the booking of 03:00 stored, the personal training still accepts a
    second client. *)
Lemma Booking_save_outside_bucket_witness :
  Training_can_book iso_parse
    (mk_Store (trainings db1) [with_pk 1 early_booking]) personal1
    (Str "2024-01-15 03:00:00")
  = Ok true.
Proof.
  destruct (Booking_save_outside_bucket iso_parse iso_str db1
              (mk_Store (trainings db1) [with_pk 1 early_booking])
              early_booking personal1 (Str "2024-01-15 03:00:00"))
    as [_ H].
  - reflexivity.
  - reflexivity.
  - intros (t & dt & _ & _ & Hdt & Hlo & _).
    injection Hdt as <-; simpl in Hlo; lia.
  - rewrite H; reflexivity.
Defined.

Lemma count_write_row :
  forall (p : Booking -> bool) (rows : list Booking) (b : Booking),
    NoDup (map booking_pk rows) ->
    length (filter p (write_row rows b)) <= S (length (filter p rows)).
Proof.
  intros p rows b Hnd; unfold write_row.
  assert (Happ : forall x, length (filter p (rows ++ [x]))
                           <= S (length (filter p rows))).
  { intros x; rewrite filter_app, length_app; simpl.
    destruct (p x); simpl; lia. }
  destruct (booking_pk b) as [k |]; [| apply Happ].
  destruct (existsb (has_pk k) rows); [| apply Happ].
  clear Happ; induction rows as [| x l IH]; simpl; [lia |].
  inversion Hnd as [| ? ? Hx Hl]; subst.
  destruct (has_pk k x) eqn:E.
  - assert (Hid : map (fun r => if has_pk k r then b else r) l = l).
    { rewrite <- (map_id l) at 2; apply map_ext_in; intros r Hr.
      destruct (has_pk k r) eqn:Er; [| reflexivity].
      exfalso; apply Hx. apply has_pk_Some in E, Er.
      rewrite E, <- Er; apply in_map, Hr. }
    rewrite Hid; destruct (p b), (p x); simpl; lia.
  - specialize (IH Hl); destruct (p x); simpl; lia.
Qed.

(** After a booking is saved, the hour-range count of its training does not
    exceed the capacity of the room: the save went through [can_book], and
    one write adds at most one counted row. *)
Theorem Booking_save_within_capacity :
  forall fromisoformat (str : datetime -> string) (db db' : Store)
         (b : Booking) (T : Training),
    (forall d, str d <> "") ->
    NoDup (map booking_pk (bookings db)) ->
    Booking_save fromisoformat str db b = Ok db' ->
    training b = Some T ->
    bookings_count db T < room_capacity (room T)
    /\ bookings_count db' T <= room_capacity (room T).
Proof.
  intros f str db db' b T Hstr Hnd Hsave HT.
  destruct (Booking_save_inv f str db b db' Hsave) as (dt & Hdt & Hchk & ->).
  destruct (recheck_Ok_inv f str db b dt Hstr Hdt Hchk) as (T' & HT' & Hcan).
  assert (T' = T) by congruence; subst T'.
  assert (Hlt : bookings_count db T < room_capacity (room T)).
  { destruct (can_book_Ok_inv f db T _ true Hcan)
      as (t & tr & ws & Harg & Htr & Hws).
    rewrite (can_book_with_schedule f db T tr ws _ t Htr Hws Harg) in Hcan.
    injection Hcan as Hcan; apply Nat.ltb_lt.
    destruct (in_break ws t); [discriminate |].
    destruct (String.eqb (training_type T) "GT");
      [| destruct (String.eqb (training_type T) "PT")];
      try (apply andb_true_iff in Hcan; apply Hcan); exact Hcan. }
  split; [exact Hlt |].
  unfold bookings_count in *; simpl.
  pose proof (count_write_row
                (fun b0 => booking_of T b0
                           && hour_in_range (hour (start_time T))
                                (hour (end_time T)) b0)
                (bookings db) b Hnd).
  lia.
Qed.

Lemma Booking_save_within_capacity_witness :
  bookings_count db1 personal1 < room_capacity (room personal1)
  /\ bookings_count db2 personal1 <= room_capacity (room personal1).
Proof.
  apply (Booking_save_within_capacity iso_parse iso_str db1 db2 booking1 personal1).
  - apply iso_str_nonempty.
  - constructor.
  - reflexivity.
  - reflexivity.
Defined.

(** ** What [Booking.clean] accepts *)

(** [Booking.clean] passes exactly when there is no [booking_time] or
    [can_book] of the training returns true for the string of the time; it
    raises ValidationError exactly when [can_book] returns false; a booking
    with a time and no training raises AttributeError. *)
Theorem Booking_clean_outcome :
  forall fromisoformat (str : datetime -> string) (db : Store) (b : Booking),
    (forall d, str d <> "") ->
    (Booking_clean fromisoformat str db b = Ok tt
     <-> booking_time b = None
         \/ exists dt T,
             booking_time b = Some dt /\ training b = Some T
             /\ Training_can_book fromisoformat db T (Str (str dt)) = Ok true)
    /\ (Booking_clean fromisoformat str db b = Raise ValidationError
        <-> exists dt T,
             booking_time b = Some dt /\ training b = Some T
             /\ Training_can_book fromisoformat db T (Str (str dt)) = Ok false)
    /\ (forall dt, booking_time b = Some dt -> training b = None ->
                   Booking_clean fromisoformat str db b = Raise AttributeError).
Proof.
  intros f str db b Hstr.
  unfold Booking_clean, recheck, booking_time_str.
  destruct (booking_time b) as [dt |].
  - rewrite (truthy_str str dt (Hstr dt)).
    destruct (training b) as [T |]; simpl.
    + destruct (Training_can_book f db T (Str (str dt))) as [[|] | e] eqn:E;
        simpl; (split; [| split]); try (intros; discriminate).
      * split; [intros _; right; exists dt, T; auto | reflexivity].
      * split; [discriminate |].
        intros (dt' & T' & Hd & Ht & Hc).
        injection Hd as <-; injection Ht as <-; congruence.
      * split; [discriminate |].
        intros [H | (dt' & T' & Hd & Ht & Hc)]; [discriminate |].
        injection Hd as <-; injection Ht as <-; congruence.
      * split; [intros _; exists dt, T; auto | reflexivity].
      * split; [discriminate |].
        intros [H | (dt' & T' & Hd & Ht & Hc)]; [discriminate |].
        injection Hd as <-; injection Ht as <-; congruence.
      * split.
        -- intros H; injection H as ->.
           destruct (can_book_Raise_inv f db T _ _ E); discriminate.
        -- intros (dt' & T' & Hd & Ht & Hc).
           injection Hd as <-; injection Ht as <-; congruence.
    + split; [| split].
      * split; [discriminate |].
        intros [H | (dt' & T' & _ & Ht & _)]; discriminate.
      * split; [discriminate |].
        intros (dt' & T' & _ & Ht & _); discriminate.
      * reflexivity.
  - split; [| split].
    + split; [left; reflexivity | reflexivity].
    + split; [discriminate |].
      intros (dt' & T' & Hd & _); discriminate.
    + intros dt Hd; discriminate.
Qed.

Lemma Booking_clean_outcome_witness :
  Booking_clean iso_parse iso_str db1 booking1 = Ok tt
  /\ Booking_clean iso_parse iso_str db2 booking1 = Raise ValidationError.
Proof.
  destruct (Booking_clean_outcome iso_parse iso_str db1 booking1 iso_str_nonempty)
    as (H1 & _).
  destruct (Booking_clean_outcome iso_parse iso_str db2 booking1 iso_str_nonempty)
    as (_ & H2 & _).
  split.
  - apply H1; right.
    exists (mk_datetime 2024 1 15 (at_ 10 30)), personal1; repeat split.
  - apply H2.
    exists (mk_datetime 2024 1 15 (at_ 10 30)), personal1; repeat split.
Defined.

(** ** Trainings that cannot be booked *)

Lemma Booking_save_unscheduled :
  forall fromisoformat (str : datetime -> string) (db : Store) (b : Booking),
    (forall d, str d <> "") ->
    (forall T tr ws,
        ~ (training b = Some T /\ trainer T = Some tr
           /\ trainer_work_schedule tr = Some ws)) ->
    exists e, Booking_save fromisoformat str db b = Raise e
              /\ e <> ValidationError.
Proof.
  intros f str db b Hstr Hno.
  unfold Booking_save, check_booking_time, recheck, booking_time_str.
  destruct (booking_time b) as [dt |]; simpl;
    [| exists IntegrityError; split; [reflexivity | discriminate]].
  rewrite (truthy_str str dt (Hstr dt)).
  destruct (training b) as [T |] eqn:HT; simpl;
    [| exists AttributeError; split; [reflexivity | discriminate]].
  destruct (Training_can_book f db T (Str (str dt))) as [ok | e] eqn:E.
  - destruct (can_book_Ok_inv f db T _ ok E) as (t & tr & ws & _ & Htr & Hws).
    exfalso; apply (Hno T tr ws); auto.
  - simpl; exists e; split; [reflexivity |].
    destruct (can_book_Raise_inv f db T _ e E) as [-> | ->]; discriminate.
Qed.

(** A booking whose training has no trainer, or a trainer without a work
    schedule, or that has no training at all, is never saved: the save
    raises, and what it raises is not the ValidationError of the guard. *)
Theorem Booking_save_needs_schedule :
  forall fromisoformat (str : datetime -> string) (db : Store) (b : Booking),
    (forall d, str d <> "") ->
    (forall T tr ws,
        ~ (training b = Some T /\ trainer T = Some tr
           /\ trainer_work_schedule tr = Some ws)) ->
    exists e, Booking_save fromisoformat str db b = Raise e
              /\ e <> ValidationError.
Proof. exact Booking_save_unscheduled. Qed.

Lemma Booking_save_needs_schedule_witness :
  exists e, Booking_save iso_parse iso_str db1
              (mk_Booking None 7 (Some personal3)
                 (Some (mk_datetime 2024 1 15 (at_ 10 30))))
            = Raise e
            /\ e <> ValidationError.
Proof.
  apply (Booking_save_needs_schedule iso_parse iso_str db1
           (mk_Booking None 7 (Some personal3)
              (Some (mk_datetime 2024 1 15 (at_ 10 30))))
           iso_str_nonempty).
  intros T tr ws (HT & Htr & Hws); simpl in HT.
  injection HT as <-; simpl in Htr; injection Htr as <-; discriminate Hws.
Defined.

(** A FREE training that [Training.clean] accepts cannot be booked:
    [can_book] raises AttributeError on every booking time, [Booking.clean]
    raises on every booking of it that has a time, and no booking of it is
    ever saved. *)
Theorem free_training_unbookable :
  forall fromisoformat (str : datetime -> string) (db : Store) (T : Training),
    (forall d, str d <> "") ->
    Training_clean T = Ok tt ->
    training_type T = "SW" ->
    (forall arg t, as_time fromisoformat arg = Ok t ->
                   Training_can_book fromisoformat db T arg = Raise AttributeError)
    /\ (forall b dt, training b = Some T -> booking_time b = Some dt ->
                     exists e, Booking_clean fromisoformat str db b = Raise e
                               /\ e <> ValidationError)
    /\ (forall b, training b = Some T ->
                  exists e, Booking_save fromisoformat str db b = Raise e).
Proof.
  intros f str db T Hstr Hclean Hty.
  assert (Hcan : forall arg t, as_time f arg = Ok t ->
                   Training_can_book f db T arg = Raise AttributeError)
    by (intros arg t; apply (can_book_clean_free f db T arg t Hclean Hty)).
  assert (Hnotr : forall tr, trainer T <> Some tr).
  { intros tr Htr.
    unfold Training_clean in Hclean; rewrite Hty, Htr in Hclean.
    simpl in Hclean.
    destruct (group_training_type T); [discriminate |].
    destruct (existsb (Nat.eqb (room_pk (room T))) (trainer_rooms tr));
      discriminate. }
  split; [exact Hcan | split].
  - intros b dt HT Hdt.
    unfold Booking_clean, recheck, booking_time_str.
    rewrite Hdt, (truthy_str str dt (Hstr dt)), HT; simpl.
    destruct (Training_can_book f db T (Str (str dt))) as [ok | e] eqn:E.
    + destruct (can_book_Ok_inv f db T _ ok E) as (t & tr & ws & _ & Htr & _).
      exfalso; apply (Hnotr tr Htr).
    + simpl; exists e; split; [reflexivity |].
      destruct (can_book_Raise_inv f db T _ e E) as [-> | ->]; discriminate.
  - intros b HT.
    destruct (Booking_save_unscheduled f str db b Hstr) as (e & He & _).
    + intros T' tr ws (HT' & Htr & _).
      assert (T' = T) by congruence; subst T'; apply (Hnotr tr Htr).
    + exists e; exact He.
Qed.

Lemma free_training_unbookable_witness :
  Training_can_book iso_parse db1 free2 (Time (at_ 10 30)) = Raise AttributeError
  /\ exists e, Booking_save iso_parse iso_str db1 free_booking = Raise e.
Proof.
  destruct (free_training_unbookable iso_parse iso_str db1 free2
              iso_str_nonempty eq_refl eq_refl) as (H1 & _ & H3).
  split.
  - apply (H1 (Time (at_ 10 30)) (at_ 10 30)); reflexivity.
  - apply (H3 free_booking); reflexivity.
Defined.

(** ** [Training.clean] *)

Lemma existsb_eqb_In :
  forall (k : nat) (l : list nat), existsb (Nat.eqb k) l = true <-> In k l.
Proof.
  intros k l; rewrite existsb_exists; split.
  - intros (x & Hx & E); apply Nat.eqb_eq in E; subst; exact Hx.
  - intros H; exists k; split; [exact H | apply Nat.eqb_refl].
Qed.

Lemma Training_clean_iff :
  forall T : Training,
    Training_clean T = Ok tt
    <-> (training_type T = "GT" <-> group_training_type T <> None)
        /\ (forall tr, trainer T = Some tr ->
                       In (room_pk (room T)) (trainer_rooms tr)
                       /\ training_type T <> "SW").
Proof.
  intros T; unfold Training_clean.
  assert (Hsome : forall g : GroupTrainingType, Some g <> None) by discriminate.
  destruct (String.eqb_spec (training_type T) "GT") as [Hgt | Hgt];
    destruct (group_training_type T) as [g |]; simpl;
    try (split; [discriminate | intros [[H1 H2] _]; exfalso];
         solve [apply (H1 Hgt); reflexivity | apply Hgt, H2, Hsome]).
  - (* GT with a group type *)
    destruct (trainer T) as [tr |]; simpl.
    + destruct (existsb (Nat.eqb (room_pk (room T))) (trainer_rooms tr)) eqn:E;
        simpl.
      * replace (String.eqb (training_type T) "SW") with false
          by (rewrite Hgt; reflexivity).
        split; [intros _ | reflexivity].
        split; [split; [intros _; apply Hsome | intros _; exact Hgt] |].
        intros tr' H; injection H as <-.
        split; [apply existsb_eqb_In, E | rewrite Hgt; discriminate].
      * split; [discriminate |]. intros [_ H].
        destruct (H tr eq_refl) as [Hin _].
        apply existsb_eqb_In in Hin; congruence.
    + split; [intros _ | reflexivity].
      split; [split; [intros _; apply Hsome | intros _; exact Hgt] | discriminate].
  - (* another type, no group type *)
    destruct (trainer T) as [tr |]; simpl.
    + destruct (existsb (Nat.eqb (room_pk (room T))) (trainer_rooms tr)) eqn:E;
        simpl.
      * destruct (String.eqb_spec (training_type T) "SW") as [Hsw | Hsw].
        -- split; [discriminate |]. intros [_ H].
           destruct (H tr eq_refl) as [_ Hn]; contradiction.
        -- split; [intros _ | reflexivity].
           split; [split; [contradiction | intros H; contradiction H; reflexivity] |].
           intros tr' H; injection H as <-.
           split; [apply existsb_eqb_In, E | exact Hsw].
      * split; [discriminate |]. intros [_ H].
        destruct (H tr eq_refl) as [Hin _].
        apply existsb_eqb_In in Hin; congruence.
    + split; [intros _ | reflexivity].
      split; [split; [contradiction | intros H; contradiction H; reflexivity] | discriminate].
Qed.

Lemma Training_clean_raises :
  forall (T : Training) (e : exn), Training_clean T = Raise e -> e = ValidationError.
Proof.
  intros T e H; unfold Training_clean in H.
  repeat match type of H with
         | (if ?c then _ else _) = _ => destruct c
         end; congruence.
Qed.

(** [Training.clean] accepts a training whose room is set exactly when it
    is a GROUP training if and only if it has a group type, and, if it has a
    trainer, its room is one of the rooms of the trainer and it is not a FREE
    training. *)
Theorem Training_clean_accepts :
  forall T : Training,
    Training_clean T = Ok tt
    <-> (training_type T = "GT" <-> group_training_type T <> None)
        /\ (forall tr, trainer T = Some tr ->
                       In (room_pk (room T)) (trainer_rooms tr)
                       /\ training_type T <> "SW").
Proof. intros T; apply Training_clean_iff. Qed.

(** ** Deleting a training *)

Lemma filter_filter_implied :
  forall (A : Type) (p q : A -> bool) (l : list A),
    (forall x, p x = true -> q x = true) ->
    filter p (filter q l) = filter p l.
Proof.
  intros A p q l H; induction l as [| x l IH]; simpl; [reflexivity |].
  destruct (q x) eqn:Eq; simpl; rewrite IH.
  - reflexivity.
  - destruct (p x) eqn:Ep; [| reflexivity].
    rewrite (H x Ep) in Eq; discriminate.
Qed.

(** [Training.delete] removes the training and every booking of it, keeps
    every other booking, and leaves the count of every other training as it
    was. *)
Theorem Training_delete_cascade :
  forall (db : Store) (k : nat),
    (forall T, In T (trainings (Training_delete db k)) -> training_pk T <> k)
    /\ (forall b T, In b (bookings (Training_delete db k)) ->
                    training b = Some T -> training_pk T <> k)
    /\ (forall b, In b (bookings db) ->
                  (forall T, training b = Some T -> training_pk T <> k) ->
                  In b (bookings (Training_delete db k)))
    /\ (forall self, training_pk self <> k ->
                     bookings_count (Training_delete db k) self
                     = bookings_count db self).
Proof.
  intros db k; unfold Training_delete; simpl.
  split; [| split; [| split]].
  - intros T HT; apply filter_In in HT; destruct HT as [_ H].
    apply negb_true_iff, Nat.eqb_neq in H; exact H.
  - intros b T Hb HT; apply filter_In in Hb; destruct Hb as [_ H].
    rewrite HT in H; apply negb_true_iff, Nat.eqb_neq in H; exact H.
  - intros b Hb Hk; apply filter_In; split; [exact Hb |].
    destruct (training b) as [T |]; [| reflexivity].
    apply negb_true_iff, Nat.eqb_neq, (Hk T eq_refl).
  - intros self Hk; unfold bookings_count; simpl.
    rewrite filter_filter_implied; [reflexivity |].
    intros b Hb; apply andb_true_iff in Hb; destruct Hb as [Hb _].
    unfold booking_of in Hb.
    destruct (training b) as [T |]; [| discriminate].
    apply Nat.eqb_eq in Hb; apply negb_true_iff, Nat.eqb_neq; congruence.
Qed.

Lemma Training_delete_cascade_witness :
  bookings (Training_delete db2 1) = []
  /\ bookings_count (Training_delete db2 2) personal1 = bookings_count db2 personal1.
Proof.
  destruct (Training_delete_cascade db2 2) as (_ & _ & _ & H).
  split; [reflexivity | apply H; simpl; lia].
Defined.

(** ** The rooms of a trainer *)

(** After [add_room] the room is one of the rooms of the trainer and the
    rooms that were there stay; adding it again changes nothing, no room is
    listed twice, the work schedule is untouched, and [Training.clean] accepts
    a training of this trainer in this room as far as the room goes. *)
Theorem Trainer_add_room_clean :
  forall (tr : Trainer) (r : Room),
    In (room_pk r) (trainer_rooms (Trainer_add_room tr r))
    /\ (forall k, In k (trainer_rooms tr) ->
                  In k (trainer_rooms (Trainer_add_room tr r)))
    /\ Trainer_add_room (Trainer_add_room tr r) r = Trainer_add_room tr r
    /\ (NoDup (trainer_rooms tr) ->
        NoDup (trainer_rooms (Trainer_add_room tr r)))
    /\ trainer_work_schedule (Trainer_add_room tr r) = trainer_work_schedule tr
    /\ (forall T,
           trainer T = Some (Trainer_add_room tr r) ->
           room_pk (room T) = room_pk r ->
           training_type T <> "SW" ->
           (training_type T = "GT" <-> group_training_type T <> None) ->
           Training_clean T = Ok tt).
Proof.
  intros tr r.
  assert (Hin : In (room_pk r) (trainer_rooms (Trainer_add_room tr r))).
  { unfold Trainer_add_room.
    destruct (existsb (Nat.eqb (room_pk r)) (trainer_rooms tr)) eqn:E; simpl.
    - apply existsb_eqb_In, E.
    - apply in_or_app; right; left; reflexivity. }
  split; [exact Hin |]. split; [| split; [| split; [| split]]].
  - intros k Hk; unfold Trainer_add_room.
    destruct (existsb (Nat.eqb (room_pk r)) (trainer_rooms tr)); simpl;
      [exact Hk | apply in_or_app; left; exact Hk].
  - unfold Trainer_add_room at 1.
    apply existsb_eqb_In in Hin; rewrite Hin; reflexivity.
  - intros Hnd; unfold Trainer_add_room.
    destruct (existsb (Nat.eqb (room_pk r)) (trainer_rooms tr)) eqn:E; simpl;
      [exact Hnd |].
    apply NoDup_app; repeat split; auto.
    + repeat constructor; simpl; tauto.
    + intros x Hx [<- | []].
      apply existsb_eqb_In in Hx; congruence.
  - unfold Trainer_add_room.
    destruct (existsb (Nat.eqb (room_pk r)) (trainer_rooms tr)); reflexivity.
  - intros T Htr Hroom Hsw Hgt; apply Training_clean_iff.
    split; [exact Hgt |].
    intros tr' Htr'; rewrite Htr in Htr'; injection Htr' as <-.
    rewrite Hroom; auto.
Qed.

Lemma Trainer_add_room_clean_witness :
  Training_clean
    (mk_Training 9 (Some (Trainer_add_room T2 pool)) pool "PT" None
       (at_ 10 0) (at_ 11 0))
  = Ok tt.
Proof.
  destruct (Trainer_add_room_clean T2 pool) as (_ & _ & _ & _ & _ & H).
  apply H; try reflexivity; [discriminate |].
  split; [discriminate | intros Hn; contradiction Hn; reflexivity].
Defined.

Lemma filter_neq_absent :
  forall (k : nat) (l : list nat),
    ~ In k l -> filter (fun x => negb (x =? k)) l = l.
Proof.
  intros k l; induction l as [| x l IH]; simpl; intros H; [reflexivity |].
  destruct (Nat.eqb_spec x k) as [-> | Hne]; simpl.
  - exfalso; apply H; left; reflexivity.
  - rewrite IH; [reflexivity | intros Hin; apply H; right; exact Hin].
Qed.

(** After [remove_room] the room is not one of the rooms of the trainer and
    the other rooms are as before; removing a room just added to a trainer
    who did not have it gives the trainer back; and [Training.clean] refuses
    every training of this trainer in the removed room. *)
Theorem Trainer_remove_room_clean :
  forall (tr : Trainer) (r : Room),
    ~ In (room_pk r) (trainer_rooms (Trainer_remove_room tr r))
    /\ (forall k, k <> room_pk r ->
                  (In k (trainer_rooms (Trainer_remove_room tr r))
                   <-> In k (trainer_rooms tr)))
    /\ (~ In (room_pk r) (trainer_rooms tr) ->
        Trainer_remove_room (Trainer_add_room tr r) r = tr)
    /\ (forall T,
           trainer T = Some (Trainer_remove_room tr r) ->
           room_pk (room T) = room_pk r ->
           Training_clean T = Raise ValidationError).
Proof.
  intros tr r.
  assert (Hout : ~ In (room_pk r) (trainer_rooms (Trainer_remove_room tr r))).
  { unfold Trainer_remove_room; simpl; intros H.
    apply filter_In in H; destruct H as [_ H].
    rewrite Nat.eqb_refl in H; discriminate. }
  split; [exact Hout |]. split; [| split].
  - intros k Hk; unfold Trainer_remove_room; simpl.
    rewrite filter_In; split; [tauto |].
    intros H; split; [exact H |].
    apply negb_true_iff, Nat.eqb_neq, Hk.
  - intros Hnot; unfold Trainer_add_room.
    replace (existsb (Nat.eqb (room_pk r)) (trainer_rooms tr)) with false.
    + unfold Trainer_remove_room; simpl.
      rewrite filter_app; simpl; rewrite Nat.eqb_refl; simpl.
      rewrite (filter_neq_absent (room_pk r) (trainer_rooms tr) Hnot), app_nil_r.
      destruct tr; reflexivity.
    + symmetry; destruct (existsb (Nat.eqb (room_pk r)) (trainer_rooms tr)) eqn:E;
        [| reflexivity].
      exfalso; apply Hnot, existsb_eqb_In, E.
  - intros T Htr Hroom.
    destruct (Training_clean T) as [[] | e] eqn:E.
    + exfalso; apply Training_clean_iff in E; destruct E as [_ E].
      destruct (E _ Htr) as [Hin _]; rewrite Hroom in Hin; exact (Hout Hin).
    + rewrite (Training_clean_raises T e E); reflexivity.
Qed.

Lemma Trainer_remove_room_clean_witness :
  Trainer_remove_room (Trainer_add_room T2 pool) pool = T2
  /\ Training_clean
       (mk_Training 9 (Some (Trainer_remove_room T1 gym)) gym "PT" None
          (at_ 10 0) (at_ 11 0))
     = Raise ValidationError.
Proof.
  destruct (Trainer_remove_room_clean T2 pool) as (_ & _ & H3 & _).
  destruct (Trainer_remove_room_clean T1 gym) as (_ & _ & _ & H4).
  split.
  - apply H3; simpl; tauto.
  - apply H4; reflexivity.
Defined.

(** ** The trainer profile of a user *)

Lemma get_or_create_inl :
  forall (rows rows' : TrainerTable) (u : nat),
    get_or_create rows u = inl rows' ->
    (~ In u (map fst rows)
     /\ rows' = (rows ++ [(u, mk_Trainer (next_trainer_pk rows) [] None)])%list)
    \/ (In u (map fst rows) /\ rows' = rows).
Proof.
  intros rows rows' u H; unfold get_or_create in H.
  destruct (filter (fun r => fst r =? u) rows) as [| x [| y l]] eqn:E;
    [| | discriminate]; injection H as <-.
  - left; split; [| reflexivity].
    intros Hin; apply in_map_iff in Hin; destruct Hin as (r & Hr & Hin).
    assert (Hf : In r (filter (fun r => fst r =? u) rows))
      by (apply filter_In; split; [exact Hin | apply Nat.eqb_eq, Hr]).
    rewrite E in Hf; destruct Hf.
  - right; split; [| reflexivity].
    assert (Hf : In x (filter (fun r => fst r =? u) rows))
      by (rewrite E; left; reflexivity).
    apply filter_In in Hf; destruct Hf as [Hin Hx].
    apply Nat.eqb_eq in Hx; apply in_map_iff; exists x; auto.
Qed.

Lemma filter_absent_nil :
  forall (rows : TrainerTable) (u : nat),
    ~ In u (map fst rows) -> filter (fun r => fst r =? u) rows = [].
Proof.
  intros rows u; induction rows as [| x l IH]; simpl; intros H; [reflexivity |].
  destruct (Nat.eqb_spec (fst x) u) as [E | E]; [exfalso; apply H; auto |].
  apply IH; intros Hin; apply H; right; exact Hin.
Qed.

(** The receiver is idempotent: run again on its own result it returns that
    result.  It only ever appends a row; for a user whose role is 'TR' the
    result holds exactly one profile of the user, for any other role the
    table is returned as it is, a profile that exists included; and users
    stay distinct over the rows. *)
Theorem trainer_profile_idempotent :
  forall (rows rows' : TrainerTable) (instance : User),
    create_or_update_trainer_profile rows instance = inl rows' ->
    create_or_update_trainer_profile rows' instance = inl rows'
    /\ (exists added, rows' = (rows ++ added)%list)
    /\ (role instance = "TR" ->
        length (filter (fun r => fst r =? user_pk instance) rows') = 1)
    /\ (role instance <> "TR" -> rows' = rows)
    /\ (NoDup (map fst rows) -> NoDup (map fst rows')).
Proof.
  intros rows rows' u H; unfold create_or_update_trainer_profile in *.
  destruct (String.eqb_spec (role u) "TR") as [Hr | Hr].
  - assert (Hone : length (filter (fun r => fst r =? user_pk u) rows') = 1).
    { unfold get_or_create in H.
      destruct (filter (fun r => fst r =? user_pk u) rows) as [| x [| y l]] eqn:E;
        [| | discriminate]; injection H as <-.
      - rewrite filter_app, E; simpl; rewrite Nat.eqb_refl; reflexivity.
      - rewrite E; reflexivity. }
    split; [| split; [| split; [| split]]].
    + unfold get_or_create.
      destruct (filter (fun r => fst r =? user_pk u) rows') as [| x [| y l]];
        try discriminate; reflexivity.
    + destruct (get_or_create_inl rows rows' (user_pk u) H) as [[_ ->] | [_ ->]];
        [eexists; reflexivity | exists []; symmetry; apply app_nil_r].
    + intros _; exact Hone.
    + intros Hn; contradiction.
    + intros Hnd.
      destruct (get_or_create_inl rows rows' (user_pk u) H) as [[Hno ->] | [_ ->]];
        [| exact Hnd].
      rewrite map_app; simpl; apply NoDup_app; repeat split; auto.
      * repeat constructor; simpl; tauto.
      * intros x Hx [<- | []]; exact (Hno Hx).
  - injection H as <-.
    split; [reflexivity |]. split; [exists []; symmetry; apply app_nil_r |].
    split; [intros Hn; contradiction |]. split; auto.
Qed.

Lemma trainer_profile_idempotent_witness :
  create_or_update_trainer_profile [(5, T2)] coach = inl [(5, T2)]
  /\ length (filter (fun r => fst r =? 5)
               [(3, T1); (5, mk_Trainer 2 [] None)]) = 1.
Proof.
  split.
  - apply (trainer_profile_idempotent [(5, T2)] [(5, T2)] coach); reflexivity.
  - apply (trainer_profile_idempotent [(3, T1)]
             [(3, T1); (5, mk_Trainer 2 [] None)] coach); reflexivity.
Defined.

(** The profile the receiver creates for a user who had none has no room and
    no work schedule: the trainer is available for no interval,
    [Training.clean] accepts no training given to it, and [can_book] raises
    AttributeError on every such training. *)
Theorem new_trainer_profile_unusable :
  forall (rows rows' : TrainerTable) (instance : User) (p : Trainer),
    create_or_update_trainer_profile rows instance = inl rows' ->
    ~ In (user_pk instance) (map fst rows) ->
    In (user_pk instance, p) rows' ->
    trainer_rooms p = []
    /\ trainer_work_schedule p = None
    /\ (forall s e, Trainer_is_available p s e = false)
    /\ (forall T, trainer T = Some p -> Training_clean T <> Ok tt)
    /\ (forall fromisoformat db T arg t,
           trainer T = Some p ->
           as_time fromisoformat arg = Ok t ->
           Training_can_book fromisoformat db T arg = Raise AttributeError).
Proof.
  intros rows rows' u p H Hno Hin.
  assert (Hp : p = mk_Trainer (next_trainer_pk rows) [] None).
  { unfold create_or_update_trainer_profile in H.
    destruct (String.eqb (role u) "TR").
    - destruct (get_or_create_inl rows rows' (user_pk u) H) as [[_ ->] | [Hyes _]];
        [| contradiction].
      apply in_app_iff in Hin; destruct Hin as [Hin | [Hin | []]].
      + exfalso; apply Hno, in_map_iff; exists (user_pk u, p); auto.
      + injection Hin as <-; reflexivity.
    - injection H as <-.
      exfalso; apply Hno, in_map_iff; exists (user_pk u, p); auto. }
  subst p; simpl.
  split; [reflexivity |]. split; [reflexivity |]. split; [reflexivity |].
  split.
  - intros T Htr E.
    apply Training_clean_iff in E; destruct E as [_ E].
    destruct (E _ Htr) as [[] _].
  - intros f db T arg t Htr Harg.
    apply (can_book_no_schedule f db T _ arg t Htr eq_refl Harg).
Qed.

Lemma new_trainer_profile_unusable_witness :
  Training_can_book iso_parse db1
    (mk_Training 9 (Some (mk_Trainer 2 [] None)) gym "PT" None (at_ 10 0) (at_ 11 0))
    (Time (at_ 10 30))
  = Raise AttributeError.
Proof.
  destruct (new_trainer_profile_unusable [(3, T1)]
              [(3, T1); (5, mk_Trainer 2 [] None)] coach (mk_Trainer 2 [] None))
    as (_ & _ & _ & _ & H).
  - reflexivity.
  - simpl; intros [H | []]; discriminate H.
  - right; left; reflexivity.
  - apply (H iso_parse db1 _ (Time (at_ 10 30)) (at_ 10 30)); reflexivity.
Defined.

(** ** The phone number of a user *)

Lemma firstn_exact :
  forall (A : Type) (l t : list A), firstn (length l) (l ++ t) = l.
Proof.
  intros A l t; induction l as [| x l IH]; simpl;
    [destruct t; reflexivity | rewrite IH; reflexivity].
Qed.

Lemma skipn_exact :
  forall (A : Type) (l t : list A), skipn (length l) (l ++ t) = t.
Proof. intros A l t; induction l as [| x l IH]; simpl; auto. Qed.

Lemma phone_regex_shape :
  forall (isdecimal : nat -> bool) (s : list nat),
    phone_regex isdecimal s = true <-> phone_shape isdecimal s.
Proof.
  intros isdecimal s; unfold phone_shape; split.
  - destruct s as [| a [| b [| c rest]]]; try discriminate.
    unfold phone_regex; rewrite !andb_true_iff, orb_true_iff, !Nat.eqb_eq.
    intros [[[[[-> ->] Hc] Hlen] Hds] Htail].
    exists c, (firstn 9 rest), (skipn 9 rest).
    rewrite firstn_skipn; repeat split; auto.
    + apply Forall_forall; intros d Hd.
      rewrite forallb_forall in Hds; apply Hds, Hd.
    + destruct (skipn 9 rest) as [| nl [| y l]]; [auto | | discriminate].
      apply Nat.eqb_eq in Htail; subst; auto.
  - intros (c & ds & tail & -> & Hc & Hlen & Hds & Htail).
    assert (Hf : firstn 9 (ds ++ tail) = ds)
      by (rewrite <- Hlen; apply firstn_exact).
    assert (Hs : skipn 9 (ds ++ tail) = tail)
      by (rewrite <- Hlen; apply skipn_exact).
    unfold phone_regex; rewrite Hf, Hs.
    rewrite !andb_true_iff, orb_true_iff, !Nat.eqb_eq.
    repeat split; auto.
    + apply forallb_forall; rewrite Forall_forall in Hds; exact Hds.
    + destruct Htail as [-> | ->]; reflexivity.
Qed.

Lemma phone_shape_length :
  forall (isdecimal : nat -> bool) (s : list nat),
    phone_shape isdecimal s -> length s = 12 \/ length s = 13.
Proof.
  intros isdecimal s (c & ds & tail & -> & _ & Hlen & _ & Htail); simpl.
  rewrite length_app, Hlen; destruct Htail as [-> | ->]; simpl; lia.
Qed.

Lemma User_phone_validate_iff :
  forall (isdecimal : nat -> bool) (s : list nat),
    User_phone_validate isdecimal s = Ok tt
    <-> s = [] \/ phone_shape isdecimal s.
Proof.
  intros isdecimal s; unfold User_phone_validate.
  destruct s as [| a r]; [split; auto |].
  destruct (phone_regex isdecimal (a :: r)) eqn:E; simpl.
  - apply phone_regex_shape in E.
    destruct (phone_shape_length isdecimal _ E) as [Hl | Hl];
      simpl in Hl; injection Hl as Hl; rewrite Hl; simpl; tauto.
  - split; [discriminate |].
    intros [H | H]; [discriminate |].
    apply phone_regex_shape in H; congruence.
Qed.

(** The validators of [User.phone] accept the empty value and the values of
    the pattern: '+7', then '6' or '7', then nine digits of the class [\d],
    with or without one newline at the end.  Every other value raises
    ValidationError. *)
Theorem User_phone_accepts :
  forall (isdecimal : nat -> bool) (s : list nat),
    (User_phone_validate isdecimal s = Ok tt
     <-> s = [] \/ phone_shape isdecimal s)
    /\ (User_phone_validate isdecimal s <> Ok tt ->
        User_phone_validate isdecimal s = Raise ValidationError).
Proof.
  intros isdecimal s; split; [apply User_phone_validate_iff |].
  unfold User_phone_validate; destruct s as [| a r]; [congruence |].
  destruct (phone_regex isdecimal (a :: r) && (length (a :: r) <=? 20));
    [congruence | reflexivity].
Qed.

(** An accepted phone number has 0, 12 or 13 characters, and an accepted
    number of 12 characters is accepted again with a newline added at its
    end. *)
Theorem User_phone_newline :
  forall (isdecimal : nat -> bool) (s : list nat),
    User_phone_validate isdecimal s = Ok tt ->
    (length s = 0 \/ length s = 12 \/ length s = 13)
    /\ (length s = 12 -> User_phone_validate isdecimal (s ++ [10]) = Ok tt).
Proof.
  intros isdecimal s H; apply User_phone_validate_iff in H.
  destruct H as [-> | H]; [split; [auto | discriminate] |].
  split; [right; apply (phone_shape_length isdecimal s H) |].
  intros Hl; apply User_phone_validate_iff; right.
  destruct H as (c & ds & tail & -> & Hc & Hlen & Hds & Htail).
  destruct Htail as [-> | ->].
  - exists c, ds, [10]; rewrite app_nil_r; repeat split; auto.
  - simpl in Hl; rewrite length_app, Hlen in Hl; simpl in Hl; lia.
Qed.

Lemma User_phone_newline_witness :
  User_phone_validate ascii_digit (phone1 ++ [10]) = Ok tt.
Proof.
  apply (User_phone_newline ascii_digit phone1); reflexivity.
Defined.

(** ** The check constraints *)

Lemma time_ltb_lt : forall a b, time_ltb a b = true <-> time_lt a b.
Proof.
  intros a b; unfold time_ltb; rewrite <- time_cmp_Lt.
  destruct (time_cmp a b); split; intros H; auto; discriminate.
Qed.

Lemma time_gtb_lt : forall a b, time_gtb a b = true <-> time_lt b a.
Proof.
  intros a b; unfold time_gtb; rewrite <- time_cmp_Lt, (time_cmp_opp a b).
  destruct (time_cmp a b); split; intros H; auto; discriminate.
Qed.

Lemma time_lt_le_cycle :
  forall a b c, time_lt a b -> time_le b c -> time_le c a -> False.
Proof.
  intros [h1 m1 s1 u1] [h2 m2 s2 u2] [h3 m3 s3 u3].
  unfold time_le, time_lt; simpl; intros H1 [H2 | H2] [H3 | H3];
    try (injection H2 as -> -> -> ->); try (injection H3 as -> -> -> ->); lia.
Qed.

(** A schedule that has a time both in its working hours and in its break
    breaks the constraint [no_work_during_break], and a schedule that does
    not start before it ends breaks the other constraint; both are saved
    all the same, for any schedule is: the class keeps the [Meta] bound
    last, which declares no constraint. *)
Theorem WorkSchedule_constraints_dropped :
  forall (rows : list WorkSchedule) (ws : WorkSchedule),
    WorkSchedule_save rows ws = Ok (rows ++ [ws])%list
    /\ ((exists t, (time_le (ws_start_time ws) t /\ time_le t (ws_end_time ws))
                   /\ time_le (ws_break_start ws) t /\ time_le t (ws_break_end ws)) ->
        no_work_during_break ws = false)
    /\ (time_le (ws_end_time ws) (ws_start_time ws) ->
        api_workschedule_start_time_lt_end_time ws = false).
Proof.
  intros rows ws; split; [reflexivity | split].
  - intros (t & [Hs He] & Hbs & Hbe).
    destruct (no_work_during_break ws) eqn:E; [| reflexivity].
    unfold no_work_during_break in E; apply orb_true_iff in E.
    destruct E as [E | E]; [apply time_ltb_lt in E | apply time_gtb_lt in E];
      exfalso.
    + apply (time_lt_le_cycle _ _ _ E Hbs He).
    + apply (time_lt_le_cycle _ _ _ E Hs Hbe).
  - intros Hle.
    destruct (api_workschedule_start_time_lt_end_time ws) eqn:E; [| reflexivity].
    apply time_ltb_lt in E; exfalso.
    apply (time_lt_le_cycle _ _ _ E Hle (time_le_refl _)).
Qed.

Lemma WorkSchedule_constraints_dropped_witness :
  no_work_during_break schedule1 = false
  /\ api_workschedule_start_time_lt_end_time schedule2 = false
  /\ WorkSchedule_save [schedule1] schedule2 = Ok [schedule1; schedule2].
Proof.
  destruct (WorkSchedule_constraints_dropped [] schedule1) as (_ & H2 & _).
  destruct (WorkSchedule_constraints_dropped [schedule1] schedule2) as (H1 & _ & H3).
  split; [| split].
  - apply H2; exists (at_ 12 30).
    repeat split; left; unfold time_lt; simpl; lia.
  - apply H3; left; unfold time_lt; simpl; lia.
  - exact H1.
Defined.

(** ** Saving a training *)

Lemma write_training_In :
  forall (rows : list Training) (T : Training), In T (write_training rows T).
Proof.
  intros rows T; unfold write_training.
  destruct (existsb (fun t => training_pk t =? training_pk T) rows) eqn:E.
  - apply existsb_exists in E; destruct E as (x & Hx & Hpk).
    apply in_map_iff; exists x; rewrite Hpk; auto.
  - apply in_or_app; right; left; reflexivity.
Qed.

Lemma write_training_Forall :
  forall (P : Training -> Prop) (rows : list Training) (T : Training),
    P T -> Forall P rows -> Forall P (write_training rows T).
Proof.
  intros P rows T HT Hrows; unfold write_training.
  destruct (existsb (fun t => training_pk t =? training_pk T) rows).
  - rewrite Forall_forall in *; intros x Hx.
    apply in_map_iff in Hx; destruct Hx as (y & <- & Hy).
    destruct (training_pk y =? training_pk T); auto.
  - apply Forall_app; split; [exact Hrows | repeat constructor; exact HT].
Qed.

Lemma Training_save_Ok :
  forall (db db' : Store) (T : Training),
    Training_save db T = Ok db' ->
    time_lt (start_time T) (end_time T)
    /\ db' = mk_Store (write_training (trainings db) T) (bookings db).
Proof.
  intros db db' T H; unfold Training_save in H; simpl in H.
  rewrite andb_true_r in H.
  destruct (api_training_start_time_lt_end_time T) eqn:E; [| discriminate].
  injection H as <-; split; [apply time_ltb_lt, E | reflexivity].
Qed.

(** Saving a training succeeds exactly when [start_time] is before
    [end_time], and fails with IntegrityError otherwise; [Training.clean] has
    no part in it.  After a save the training is in the table, the bookings
    are untouched, and if every stored training started before it ended this
    still holds. *)
Theorem Training_save_window :
  forall (db : Store) (T : Training),
    ((exists db', Training_save db T = Ok db')
     <-> time_lt (start_time T) (end_time T))
    /\ (~ time_lt (start_time T) (end_time T) ->
        Training_save db T = Raise IntegrityError)
    /\ (forall db', Training_save db T = Ok db' ->
          In T (trainings db')
          /\ bookings db' = bookings db
          /\ (Forall (fun t => time_lt (start_time t) (end_time t)) (trainings db) ->
              Forall (fun t => time_lt (start_time t) (end_time t)) (trainings db'))).
Proof.
  intros db T.
  assert (Hyes : time_lt (start_time T) (end_time T) ->
                 Training_save db T
                 = Ok (mk_Store (write_training (trainings db) T) (bookings db))).
  { intros H; apply time_ltb_lt in H.
    unfold Training_save; simpl.
    unfold api_training_start_time_lt_end_time; rewrite H; reflexivity. }
  split; [| split].
  - split; [intros (db' & H); apply (Training_save_Ok db db' T H) |].
    intros H; eexists; apply (Hyes H).
  - intros Hno; unfold Training_save; simpl.
    destruct (api_training_start_time_lt_end_time T) eqn:E; [| reflexivity].
    exfalso; apply Hno, time_ltb_lt, E.
  - intros db' H; destruct (Training_save_Ok db db' T H) as [Hlt ->]; simpl.
    split; [apply write_training_In |]. split; [reflexivity |].
    apply write_training_Forall, Hlt.
Qed.

(** [free1] is a FREE training with a trainer: [Training.clean] refuses it,
    and it is saved. *)
Lemma Training_save_window_witness :
  Training_clean free1 = Raise ValidationError
  /\ exists db', Training_save (mk_Store [] []) free1 = Ok db'.
Proof.
  split; [reflexivity |].
  apply (Training_save_window (mk_Store [] []) free1).
  left; unfold time_lt; simpl; lia.
Defined.

(** A GROUP training that has just been saved stands for its own group
    slot: with the trainer available and the booking time outside the break,
    [can_book] returns true exactly when the count is below the capacity,
    with no other training in the table. *)
Theorem saved_group_training_bookable :
  forall fromisoformat (db db' : Store) (T : Training) tr ws arg t,
    Training_save db T = Ok db' ->
    training_type T = "GT" ->
    trainer T = Some tr ->
    trainer_work_schedule tr = Some ws ->
    as_time fromisoformat arg = Ok t ->
    Trainer_is_available tr (start_time T) (end_time T) = true ->
    ~ (time_le (ws_break_start ws) t /\ time_le t (ws_break_end ws)) ->
    (Training_can_book fromisoformat db' T arg = Ok true
     <-> bookings_count db T < room_capacity (room T)).
Proof.
  intros f db db' T tr ws arg t Hsave Hty Htr Hws Harg Hav Hout.
  destruct (Training_save_Ok db db' T Hsave) as [_ ->].
  pose proof (can_book_with_schedule f
                (mk_Store (write_training (trainings db) T) (bookings db))
                T tr ws arg t Htr Hws Harg) as E.
  assert (Hex : exists_ (same_group_trainings
                           (mk_Store (write_training (trainings db) T) (bookings db))
                           T) = true).
  { apply exists_filter; exists T; split; [apply write_training_In |].
    apply (same_group_training_slot T tr T Htr), (group_slot_self T tr Htr). }
  rewrite Hty, (not_in_break ws t Hout), Hav, Hex in E; simpl in E.
  apply (Ok_true_iff _ _ _ E), Nat.ltb_lt.
Qed.

Lemma saved_group_training_bookable_witness :
  Training_can_book iso_parse (mk_Store [group1] []) group1 (Time (at_ 14 30))
  = Ok true.
Proof.
  apply (saved_group_training_bookable iso_parse (mk_Store [] [])
           (mk_Store [group1] []) group1 T1 schedule1 (Time (at_ 14 30)) (at_ 14 30));
    try reflexivity.
  - intros [_ [H | H]]; [unfold time_lt in H; simpl in H; lia | discriminate H].
  - vm_compute; lia.
Defined.

(** ** [Room.available_seats] *)

(** Reading [available_seats] raises AttributeError for every room and every
    store: a room has no attribute 'trainings', the trainings of a room being
    under 'room_trainings'. *)
Theorem Room_available_seats_raises :
  forall (db : Store) (self : Room),
    Room_available_seats db self = Raise AttributeError.
Proof. intros db self; reflexivity. Qed.
